(** * Access-point lifecycle manager (worker/lib/workers/nm.ts)

    A shallow embedding of the [Teardown] and [NetworkManager] classes and
    of the part of the Node.js and D-Bus client interfaces they touch,
    followed by the properties of the manager that are stated about it. *)

From Stdlib Require Import ZArith List String Ascii Bool Lia Arith.
From Stdlib Require Import DecimalString DecimalNat.
Import ListNotations.
Open Scope Z_scope.

Set Implicit Arguments.
Set Warnings "-register-all".

(** ** JavaScript data *)

Module JS.

(** A JavaScript string is a sequence of UTF-16 code units; [charCodeAt]
    returns the unit at an index as a number. *)
Definition jsstring := list Z.

Definition wf_string (s : jsstring) : Prop :=
  Forall (fun c => 0 <= c < 65536) s.

(** String literals of the source, written in ASCII. *)
Definition js (s : string) : jsstring :=
  map (fun a => Z.of_N (N_of_ascii a)) (list_ascii_of_string s).

Definition streq (a b : jsstring) : bool :=
  if list_eq_dec Z.eq_dec a b then true else false.

(** [Array.prototype.includes] on an array of strings. *)
Definition includes (xs : list jsstring) (x : jsstring) : bool :=
  existsb (streq x) xs.

(** [String.prototype.substring(from, to)] for [from <= to]. *)
Definition substring (from to : nat) (s : jsstring) : jsstring :=
  firstn (to - from) (skipn from s).

(** Values that occur in connection descriptors.  [VUndefined] is also what
    an omitted argument or an absent property evaluates to. *)
Inductive value : Type :=
| VUndefined
| VNaN
| VBool (b : bool)
| VNum (n : Z)
| VStr (s : jsstring)
| VArr (xs : list value)
| VObj (fields : list (jsstring * value))
| Variant (signature : jsstring) (v : value).   (* new dbus.Variant(sig, v) *)

(** An optional string argument: [None] is [undefined]/[null]. *)
Definition of_opt (o : option jsstring) : value :=
  match o with Some s => VStr s | None => VUndefined end.

Definition charCodeAt (str : jsstring) (i : nat) : value :=
  match nth_error str i with
  | Some c => VNum c
  | None => VNaN
  end.

(** Own-property lookup in an object literal. *)
Fixpoint assoc (k : jsstring) (fs : list (jsstring * value)) : option value :=
  match fs with
  | [] => None
  | (k', v) :: fs' => if streq k k' then Some v else assoc k fs'
  end.

Definition field (k : jsstring) (o : value) : option value :=
  match o with
  | VObj fs => assoc k fs
  | _ => None
  end.

(** A number that fits the D-Bus type [y] (one octet). *)
Definition is_byte (v : value) : bool :=
  match v with
  | VNum n => (0 <=? n) && (n <? 256)
  | _ => false
  end.

End JS.
Import JS.

(** ** Connection descriptors *)

Module Descriptor.

(** [for (var i = 0; i < str.length; ++i) bytes.push(str.charCodeAt(i))];
    the loop runs at most [str.length] times. *)
Fixpoint stringToArrayOfBytes_loop
         (str : jsstring) (fuel i : nat) (bytes : list value) : list value :=
  match fuel with
  | O => bytes
  | S fuel' =>
      if (i <? List.length str)%nat
      then stringToArrayOfBytes_loop str fuel' (S i) (bytes ++ [charCodeAt str i])
      else bytes
  end.

Definition stringToArrayOfBytes (str : jsstring) : list value :=
  stringToArrayOfBytes_loop str (List.length str) 0 [].

(** [Math.random().toString(36).substring(2, 10)]; [r] is the base-36
    rendering of the random number, which the host supplies. *)
Definition generateId (r : jsstring) : jsstring := substring 2 10 r.

Definition wiredTemplate (r : jsstring) (method : jsstring) : value :=
  VObj
    [ (js "connection",
        VObj [ (js "id", VStr (generateId r));
               (js "type", VStr (js "802-3-ethernet"));
               (js "autoconnect", VBool false) ]);
      (js "ipv4", VObj [ (js "method", VStr method) ]);
      (js "ipv6", VObj [ (js "method", VStr (js "ignore")) ]) ].

(** The parameter [psk] is declared [string]; the declaration is erased at
    run time, so the model lets it be [undefined] too. *)
Definition wirelessTemplate
           (r : jsstring) (method ssid : jsstring) (psk : option jsstring) : value :=
  VObj
    [ (js "connection",
        VObj [ (js "id", Variant (js "s") (VStr (generateId r)));
               (js "type", Variant (js "s") (VStr (js "802-11-wireless")));
               (js "autoconnect", Variant (js "b") (VBool false)) ]);
      (js "802-11-wireless",
        VObj [ (js "mode", Variant (js "s") (VStr (js "ap")));
               (js "ssid", Variant (js "ay") (VArr (stringToArrayOfBytes ssid))) ]);
      (js "802-11-wireless-security",
        VObj [ (js "key-mgmt", Variant (js "s") (VStr (js "wpa-psk")));
               (js "psk", Variant (js "s") (of_opt psk)) ]);
      (js "ipv4", VObj [ (js "method", Variant (js "s") (VStr method)) ]);
      (js "ipv6", VObj [ (js "method", Variant (js "s") (VStr (js "ignore"))) ]) ].

(** Reading a descriptor back. *)
Definition securityBlock (d : value) : option value :=
  field (js "802-11-wireless-security") d.

Definition ssidField (d : value) : option value :=
  match field (js "802-11-wireless") d with
  | Some w => field (js "ssid") w
  | None => None
  end.

Definition ipv4Method (d : value) : option value :=
  match field (js "ipv4") d with
  | Some w => field (js "method") w
  | None => None
  end.

End Descriptor.

(** ** Effects: completion of a call, and state passing *)

Module Effect.

Inductive error : Type :=
| Error (message : jsstring)        (* new Error(message) *)
| TypeError (message : jsstring)    (* raised by the run time *)
| DBusError (name : jsstring).      (* raised by the bus client *)

(** How a call ends: it returns, it throws (an [async] function rejects),
    or the process has been terminated by [process.exit]. *)
Inductive outcome (A : Type) : Type :=
| Returned (a : A)
| Thrown (e : error)
| Exited (code : Z).
Arguments Thrown {A} e.
Arguments Exited {A} code.

Definition M (S A : Type) : Type := S -> outcome A * S.

Definition ret {S A} (a : A) : M S A := fun s => (Returned a, s).
Definition throw {S A} (e : error) : M S A := fun s => (Thrown e, s).
Definition exit {S A} (code : Z) : M S A := fun s => (Exited code, s).

Definition bind {S A C} (m : M S A) (k : A -> M S C) : M S C :=
  fun s =>
    match m s with
    | (Returned a, s') => k a s'
    | (Thrown e, s') => (Thrown e, s')
    | (Exited c, s') => (Exited c, s')
    end.

Definition returned {A} (o : outcome A) : bool :=
  match o with Returned _ => true | _ => false end.

End Effect.
Import Effect.

Notation "x <- m ;; k" := (bind m (fun x => k))
  (at level 61, m at next level, right associativity).
Notation "m ;; k" := (bind m (fun _ => k))
  (at level 61, right associativity).

(** ** The message bus client and the rest of the host *)

Module Bus.

(** What the manager asks of its bus client, in the order asked. *)
Inductive bus_call : Type :=
| OnError                                                 (* bus.on('error', ...) *)
| GetProxyObject (name path : jsstring)
| MethodCall (path iface member : jsstring) (args : list value)
| Disconnect.

(** The injected bus client ([dbus.systemBus()] or a test double) together
    with the random source, as functions of an external state [B].
    [host_getProxyObject] answers with the introspected child nodes and
    interface names of the object. *)
Class Host (B : Type) : Type := {
  host_getProxyObject : jsstring -> jsstring -> B -> outcome (list jsstring * list jsstring) * B;
  host_AddConnectionUnsaved : value -> B -> outcome jsstring * B;
  host_Delete : jsstring -> B -> outcome unit * B;
  host_GetDeviceByIpIface : jsstring -> B -> outcome jsstring * B;
  host_ActivateConnection : jsstring -> jsstring -> jsstring -> B -> outcome jsstring * B;
  host_DeactivateConnection : jsstring -> B -> outcome unit * B;
  host_disconnect : B -> outcome unit * B;
  host_random : B -> jsstring * B
}.

(** The client handle: the external state and the calls made so far. *)
Record bus (B : Type) : Type := mkBus {
  remote : B;
  calls : list bus_call
}.

Record ProxyObject : Type := mkProxy {
  path : jsstring;
  nodes : list jsstring;
  interfaces : list jsstring
}.

Record ClientInterface : Type := mkInterface {
  object_path : jsstring;
  interface_name : jsstring
}.

Section Client.
Context {B : Type} `{Host B}.

(** One request to the client: it is recorded, then answered. *)
Definition request {A} (c : bus_call) (f : B -> outcome A * B) : M (bus B) A :=
  fun b =>
    let (o, r) := f (remote b) in
    (o, mkBus r (calls b ++ [c])).

Definition getProxyObject (name p : jsstring) : M (bus B) ProxyObject :=
  x <- request (GetProxyObject name p) (host_getProxyObject name p) ;;
  ret (mkProxy p (fst x) (snd x)).

Definition getInterface (o : ProxyObject) (name : jsstring) : M (bus B) ClientInterface :=
  if includes (interfaces o) name
  then ret (mkInterface (path o) name)
  else throw (Error (js "interface not found in proxy object")).

Definition method (con : ClientInterface) (member : jsstring) (args : list value)
           {A} (f : B -> outcome A * B) : M (bus B) A :=
  request (MethodCall (object_path con) (interface_name con) member args) f.

Definition AddConnectionUnsaved (con : ClientInterface) (connection : value) :=
  method con (js "AddConnectionUnsaved") [connection]
         (host_AddConnectionUnsaved connection).

Definition Delete (con : ClientInterface) :=
  method con (js "Delete") [] (host_Delete (object_path con)).

Definition GetDeviceByIpIface (con : ClientInterface) (iface : jsstring) :=
  method con (js "GetDeviceByIpIface") [VStr iface] (host_GetDeviceByIpIface iface).

Definition ActivateConnection (con : ClientInterface) (reference device specific : jsstring) :=
  method con (js "ActivateConnection") [VStr reference; VStr device; VStr specific]
         (host_ActivateConnection reference device specific).

Definition DeactivateConnection (con : ClientInterface) (reference : jsstring) :=
  method con (js "DeactivateConnection") [VStr reference]
         (host_DeactivateConnection reference).

Definition disconnect : M (bus B) unit := request Disconnect host_disconnect.

Definition on_error : M (bus B) unit := fun b => (Returned tt, mkBus (remote b) (calls b ++ [OnError])).

Definition random : M (bus B) jsstring :=
  fun b => let (r, s) := host_random (remote b) in (Returned r, mkBus s (calls b)).

End Client.

End Bus.
Import Bus.

(** ** class Teardown *)

Module Teardown.

Section Class.
(** [F] are the function objects a registry can hold, [call] invokes one
    on the state [S], and [empty] is the function [() => {}]. *)
Context {S F : Type} (call : F -> M S unit) (empty : F).

Record t : Type := mk { fn : F }.

Definition new : t := mk empty.

Definition register (f : F) (_ : t) : t := mk f.

(** [await this.fn(); this.fn = () => {};] the assignment is reached
    only when the awaited call returns. *)
Definition run (this : t) : S -> outcome unit * S * t :=
  fun s =>
    match call (fn this) s with
    | (Returned _, s') => (Returned tt, s', mk empty)
    | (Thrown e, s') => (Thrown e, s', this)
    | (Exited c, s') => (Exited c, s', this)
    end.

End Class.
Arguments t F : clear implicits.

End Teardown.

(** ** The process: signal listeners and signal numbers *)

Module Process.

(** Functions that can be installed as listeners; [teardown_method] is
    the one function object [NetworkManager.prototype.teardown]. *)
Inductive listener : Type :=
| teardown_method
| foreign (tag : nat).

Definition listener_eqb (a b : listener) : bool :=
  match a, b with
  | teardown_method, teardown_method => true
  | foreign m, foreign n => Nat.eqb m n
  | _, _ => false
  end.

Definition SIGINT : jsstring := js "SIGINT".
Definition SIGTERM : jsstring := js "SIGTERM".

(** [os.constants.signals] *)
Definition signals_SIGINT : Z := 2.
Definition signals_SIGTERM : Z := 15.

Definition registration : Type := (jsstring * listener)%type.

Definition same (sig : jsstring) (f : listener) (r : registration) : bool :=
  streq (fst r) sig && listener_eqb (snd r) f.

(** [removeListener] takes out the most recently added registration of
    the function, if there is one. *)
Fixpoint remove_last (sig : jsstring) (f : listener) (rs : list registration)
  : list registration :=
  match rs with
  | [] => []
  | r :: rs' =>
      if existsb (same sig f) rs' then r :: remove_last sig f rs'
      else if same sig f r then rs'
      else r :: rs'
  end.

Definition listenersOf (sig : jsstring) (rs : list registration) : list listener :=
  map snd (filter (fun r => streq (fst r) sig) rs).

End Process.
Import Process.

(** ** class NetworkManager *)

Module NetworkManager.

(** [Leviathan.Options['network']]: the interface name of each Mode. *)
Record NetworkOptions : Type := mkOptions {
  opt_wired : option jsstring;
  opt_wireless : option jsstring
}.

(** The argument of [addWiredConnection]. *)
Record WiredArgs : Type := mkWired {
  wired_nat : option bool
}.

(** The argument of [addWirelessConnection]. *)
Record WirelessArgs : Type := mkWireless {
  wl_ssid : option jsstring;
  wl_psk : option jsstring;
  wl_nat : option bool
}.

(** What [this] is bound to when a method body runs: the manager, or the
    [process] object when the method was installed as a bare listener. *)
Inductive receiver : Type :=
| this_manager
| this_process.

Section Manager.
Context {B : Type} `{Host B}.

(** The function objects held by the registries: the default
    [() => {}], the closure built by [addWiredConnection] and
    [addWirelessConnection] with the two references it captures, and any
    other function handed in through the constructor or [register], which
    acts on the external state without going through the manager. *)
Inductive closure : Type :=
| noop
| reversal (activeConn conn : jsstring)
| injected (f : B -> outcome unit * B).

(** The manager's fields and the process state it touches. *)
Record world : Type := mkWorld {
  options : option NetworkOptions;
  bus : Bus.bus B;
  wired : Teardown.t closure;
  wireless : Teardown.t closure;
  listeners : list registration;
  console : list jsstring
}.

Definition NM : jsstring := js "org.freedesktop.NetworkManager".
Definition NM_path : jsstring := js "/org/freedesktop/NetworkManager".
Definition Settings_path : jsstring := js "/org/freedesktop/NetworkManager/Settings".
Definition ActiveConnection_path : jsstring :=
  js "/org/freedesktop/NetworkManager/ActiveConnection".
Definition Settings_iface : jsstring := js "org.freedesktop.NetworkManager.Settings".
Definition Connection_iface : jsstring :=
  js "org.freedesktop.NetworkManager.Settings.Connection".

(** *** private methods: they use [this.bus] only *)

Definition addConnection (connection : value) : M (Bus.bus B) jsstring :=
  o <- getProxyObject NM Settings_path ;;
  con <- getInterface o Settings_iface ;;
  AddConnectionUnsaved con connection.

Definition removeConnection (reference : jsstring) : M (Bus.bus B) unit :=
  o <- getProxyObject NM Settings_path ;;
  if includes (nodes o) reference then
    o' <- getProxyObject NM reference ;;
    con <- getInterface o' Connection_iface ;;
    Delete con
  else ret tt.

Definition getDevice (iface : jsstring) : M (Bus.bus B) jsstring :=
  o <- getProxyObject NM NM_path ;;
  con <- getInterface o NM ;;
  GetDeviceByIpIface con iface.

Definition activateConnection (reference device : jsstring) : M (Bus.bus B) jsstring :=
  o <- getProxyObject NM NM_path ;;
  con <- getInterface o NM ;;
  ActivateConnection con reference device (js "/").

Definition deactivateConnection (reference : jsstring) : M (Bus.bus B) unit :=
  o <- getProxyObject NM ActiveConnection_path ;;
  if includes (nodes o) reference then
    o' <- getProxyObject NM NM_path ;;
    con <- getInterface o' NM ;;
    DeactivateConnection con reference
  else ret tt.

(** Calling a held function.  The registered closure is
    [async () => { await this.deactivateConnection(activeConn);
                   await this.removeConnection(conn); }] *)
Definition call (f : closure) : M (Bus.bus B) unit :=
  match f with
  | noop => ret tt
  | reversal activeConn conn =>
      deactivateConnection activeConn ;;
      removeConnection conn
  | injected g =>
      fun b => let (o, r) := g (remote b) in (o, mkBus r (calls b))
  end.

(** *** access to the fields *)

Definition on_bus {A} (m : M (Bus.bus B) A) : M world A :=
  fun w =>
    let (o, b) := m (bus w) in
    (o, mkWorld (options w) b (wired w) (wireless w) (listeners w) (console w)).

Definition run_wired : M world unit :=
  fun w =>
    let '(o, b, t) := Teardown.run call noop (wired w) (bus w) in
    (o, mkWorld (options w) b t (wireless w) (listeners w) (console w)).

Definition run_wireless : M world unit :=
  fun w =>
    let '(o, b, t) := Teardown.run call noop (wireless w) (bus w) in
    (o, mkWorld (options w) b (wired w) t (listeners w) (console w)).

Definition register_wired (f : closure) : M world unit :=
  fun w =>
    (Returned tt,
     mkWorld (options w) (bus w) (Teardown.register f (wired w)) (wireless w)
             (listeners w) (console w)).

Definition register_wireless (f : closure) : M world unit :=
  fun w =>
    (Returned tt,
     mkWorld (options w) (bus w) (wired w) (Teardown.register f (wireless w))
             (listeners w) (console w)).

Definition console_log (line : jsstring) : M world unit :=
  fun w =>
    (Returned tt,
     mkWorld (options w) (bus w) (wired w) (wireless w) (listeners w)
             (console w ++ [line])).

Definition process_on (sig : jsstring) (f : listener) : M world unit :=
  fun w =>
    (Returned tt,
     mkWorld (options w) (bus w) (wired w) (wireless w)
             (listeners w ++ [(sig, f)]) (console w)).

(** [process.removeListener(sig, f)]; Node rejects a listener that is
    not a function. *)
Definition process_removeListener (sig : jsstring) (f : option listener) : M world unit :=
  match f with
  | None => throw (TypeError (js "The listener argument must be of type function"))
  | Some g =>
      fun w =>
        (Returned tt,
         mkWorld (options w) (bus w) (wired w) (wireless w)
                 (remove_last sig g (listeners w)) (console w))
  end.

(** [this.teardown] and [this.teardowns] as seen from the receiver. *)
Definition this_teardown (this : receiver) : option listener :=
  match this with
  | this_manager => Some teardown_method
  | this_process => None
  end.

Definition this_teardowns {A} (this : receiver) (m : M world A) : M world A :=
  match this with
  | this_manager => m
  | this_process => throw (TypeError (js "Cannot read property of undefined"))
  end.

(** *** constructor, in a process with no listeners yet *)

Definition default_teardowns : Teardown.t closure * Teardown.t closure :=
  (Teardown.new noop, Teardown.new noop).

Definition constructor (opts : option NetworkOptions) (b : Bus.bus B)
           (teardowns : Teardown.t closure * Teardown.t closure) : world :=
  snd ((on_bus on_error ;;
        process_on SIGINT teardown_method ;;
        process_on SIGTERM teardown_method)
         (mkWorld opts b (fst teardowns) (snd teardowns) [] [])).

(** *** public methods *)

Definition method_of_nat (nat : bool) : jsstring :=
  if nat then js "shared" else js "link-local".

Definition addWiredConnection (args : WiredArgs) : M world jsstring :=
  fun w =>
    match options w with
    | None => throw (Error (js "Wired AP unconfigured")) w
    | Some opts =>
        match opt_wired opts with
        | None => throw (Error (js "Wired AP unconfigured")) w
        | Some iface =>
            match wired_nat args with
            | None => throw (Error (js "Wired configuration incomplete")) w
            | Some nat =>
                (run_wired ;;
                 r <- on_bus random ;;
                 conn <- on_bus (addConnection
                                   (Descriptor.wiredTemplate r (method_of_nat nat))) ;;
                 device <- on_bus (getDevice iface) ;;
                 activeConn <- on_bus (activateConnection conn device) ;;
                 console_log (js "Wired AP; IFACE: " ++ iface) ;;
                 register_wired (reversal activeConn conn) ;;
                 ret iface) w
            end
        end
    end.

Definition addWirelessConnection (args : WirelessArgs) : M world jsstring :=
  fun w =>
    match options w with
    | None => throw (Error (js "Wireless AP unconfigured")) w
    | Some opts =>
        match opt_wireless opts with
        | None => throw (Error (js "Wireless AP unconfigured")) w
        | Some iface =>
            match wl_ssid args, wl_psk args, wl_nat args with
            | Some ssid, Some psk, Some nat =>
                (run_wireless ;;
                 r <- on_bus random ;;
                 conn <- on_bus (addConnection
                                   (Descriptor.wirelessTemplate
                                      r (method_of_nat nat) ssid (Some psk))) ;;
                 device <- on_bus (getDevice iface) ;;
                 activeConn <- on_bus (activateConnection conn device) ;;
                 console_log (js "Wireless AP; SSID: " ++ ssid ++ js " IFACE: " ++ iface) ;;
                 register_wireless (reversal activeConn conn) ;;
                 ret iface) w
            | _, _, _ => throw (Error (js "Wireless configuration incomplete")) w
            end
        end
    end.

Definition teardown (this : receiver) (signal : option jsstring) : M world unit :=
  process_removeListener SIGINT (this_teardown this) ;;
  process_removeListener SIGTERM (this_teardown this) ;;
  this_teardowns this run_wired ;;
  this_teardowns this run_wireless ;;
  on_bus disconnect ;;
  match signal with
  | Some s =>
      if streq s SIGINT then exit (128 + signals_SIGINT)
      else if streq s SIGTERM then exit (128 + signals_SIGTERM)
      else ret tt
  | None => ret tt
  end.

(** *** delivery of a signal

    Node calls every function registered for the signal with the
    [process] object as receiver and the signal name as argument.  A
    listener that throws stands for an [async] listener whose promise is
    rejected. *)
Definition call_listener (f : listener) (sig : jsstring) : M world unit :=
  match f with
  | teardown_method => teardown this_process (Some sig)
  | foreign _ => ret tt
  end.

Fixpoint emit (fs : list listener) (sig : jsstring) : M world unit :=
  match fs with
  | [] => ret tt
  | f :: fs' => call_listener f sig ;; emit fs' sig
  end.

Definition deliver (sig : jsstring) : M world unit :=
  fun w => emit (listenersOf sig (listeners w)) sig w.

End Manager.
Arguments world B : clear implicits.

End NetworkManager.

(** ** A network-configuration service to run the manager against

    The service keeps the registered profiles, the active connections and
    the devices of the host.  Every request first consumes one entry of
    [faults]; an entry [true] makes that request fail with no other effect,
    which stands for a service that is unreachable at that moment. *)

Module Service.
Import NetworkManager.

(** What the service knows: profiles and active connections by object
    path, devices by interface name, and the counters its paths come from. *)
Record nm : Type := mkNm {
  profiles : list jsstring;
  actives : list jsstring;
  devices : list (jsstring * jsstring);
  next_profile : nat;
  next_active : nat
}.

Record service : Type := mkService {
  state : nm;
  faults : list bool;
  entropy : jsstring
}.

Definition registered_profiles (s : service) : list jsstring := profiles (state s).
Definition active_connections (s : service) : list jsstring := actives (state s).

Definition decimal (n : nat) : jsstring :=
  js (NilEmpty.string_of_uint (Nat.to_uint n)).

Definition child (parent : jsstring) (n : nat) : jsstring :=
  parent ++ js "/" ++ decimal n.

Definition profile_path (n : nat) : jsstring := child (@Settings_path) n.
Definition active_path (n : nat) : jsstring := child (@ActiveConnection_path) n.

Definition without (x : jsstring) (xs : list jsstring) : list jsstring :=
  filter (fun y => negb (streq x y)) xs.

Fixpoint lookup (k : jsstring) (kvs : list (jsstring * jsstring)) : option jsstring :=
  match kvs with
  | [] => None
  | (k', v) :: kvs' => if streq k k' then Some v else lookup k kvs'
  end.

Definition no_reply : error := DBusError (js "org.freedesktop.DBus.Error.NoReply").

(** One request: fail if the next fault entry says so, else answer. *)
Definition serve {A} (f : nm -> outcome A * nm) : service -> outcome A * service :=
  fun s =>
    match faults s with
    | true :: rest => (Thrown no_reply, mkService (state s) rest (entropy s))
    | false :: rest =>
        let (o, n) := f (state s) in (o, mkService n rest (entropy s))
    | [] =>
        let (o, n) := f (state s) in (o, mkService n [] (entropy s))
    end.

Definition introspect (p : jsstring) (n : nm) : list jsstring * list jsstring :=
  if streq p (@Settings_path) then (profiles n, [@Settings_iface])
  else if streq p (@ActiveConnection_path) then (actives n, [])
  else if streq p (@NM_path) then ([@Settings_path; @ActiveConnection_path], [@NM])
  else if includes (profiles n) p then ([], [@Connection_iface])
  else ([], []).

Definition unknown {A} (name : string) (n : nm) : outcome A * nm :=
  (Thrown (DBusError (js name)), n).

Definition set_profiles (ps : list jsstring) (next : nat) (n : nm) : nm :=
  mkNm ps (actives n) (devices n) next (next_active n).

Definition set_actives (acts : list jsstring) (next : nat) (n : nm) : nm :=
  mkNm (profiles n) acts (devices n) (next_profile n) next.

Definition add_profile (n : nm) : outcome jsstring * nm :=
  let p := profile_path (next_profile n) in
  (Returned p, set_profiles (profiles n ++ [p]) (S (next_profile n)) n).

Definition delete_profile (p : jsstring) (n : nm) : outcome unit * nm :=
  if includes (profiles n) p
  then (Returned tt, set_profiles (without p (profiles n)) (next_profile n) n)
  else unknown "org.freedesktop.DBus.Error.UnknownObject" n.

Definition device_of (iface : jsstring) (n : nm) : outcome jsstring * nm :=
  match lookup iface (devices n) with
  | Some d => (Returned d, n)
  | None => unknown "org.freedesktop.NetworkManager.UnknownDevice" n
  end.

Definition activate (reference : jsstring) (n : nm) : outcome jsstring * nm :=
  if includes (profiles n) reference
  then let a := active_path (next_active n) in
       (Returned a, set_actives (actives n ++ [a]) (S (next_active n)) n)
  else unknown "org.freedesktop.NetworkManager.UnknownConnection" n.

Definition deactivate (reference : jsstring) (n : nm) : outcome unit * nm :=
  if includes (actives n) reference
  then (Returned tt, set_actives (without reference (actives n)) (next_active n) n)
  else unknown "org.freedesktop.NetworkManager.ConnectionNotActive" n.

#[global] Instance service_host : Host service := {
  host_getProxyObject _ p := serve (fun n => (Returned (introspect p n), n));
  host_AddConnectionUnsaved _ := serve add_profile;
  host_Delete p := serve (delete_profile p);
  host_GetDeviceByIpIface iface := serve (device_of iface);
  host_ActivateConnection reference _ _ := serve (activate reference);
  host_DeactivateConnection reference := serve (deactivate reference);
  host_disconnect s := (Returned tt, s);
  host_random s := (entropy s, s)
}.

(** A host with one ethernet and one Wi-Fi device and nothing configured. *)
Definition eth0 : jsstring := js "eth0".
Definition wlan0 : jsstring := js "wlan0".

Definition idle_host (fs : list bool) : service :=
  mkService
    (mkNm [] []
          [ (eth0, js "/org/freedesktop/NetworkManager/Devices/1");
            (wlan0, js "/org/freedesktop/NetworkManager/Devices/2") ]
          0 0)
    fs (js "0.4fzyo82mvyr").

Definition both_modes : option NetworkOptions :=
  Some (mkOptions (Some eth0) (Some wlan0)).

(** The manager as constructed by the worker, on that host. *)
Definition fresh (fs : list bool) : world service :=
  constructor both_modes (mkBus (idle_host fs) []) default_teardowns.

(** Replace the fault script: the service becomes unreachable (or
    reachable again) between two calls of the manager. *)
Definition with_faults (fs : list bool) (w : world service) : world service :=
  let s := remote (bus w) in
  mkWorld (options w)
          (mkBus (mkService (state s) fs (entropy s)) (calls (bus w)))
          (wired w) (wireless w) (listeners w) (console w).

(** The service behind a bus handle. *)
Definition behind (b : Bus.bus service) : nm := state (remote b).

(** No path the service will hand out next is in use already. *)
Definition fresh_names (n : nm) : Prop :=
  (forall k, (next_active n <= k)%nat -> ~ In (active_path k) (actives n))
  /\ (forall k, (next_profile n <= k)%nat -> ~ In (profile_path k) (profiles n)).

(** A sequence of [addWiredConnection] calls: for each call the manager
    before it, how it ended and the manager after it.  Nothing runs once
    the process has ended. *)
Fixpoint history (argss : list WiredArgs) (w : world service)
  : list (world service * outcome jsstring * world service) :=
  match argss with
  | [] => []
  | args :: rest =>
      let (o, w') := addWiredConnection args w in
      match o with
      | Exited _ => [(w, o, w')]
      | _ => (w, o, w') :: history rest w'
      end
  end.

(** The active connections that are not among [base], those that existed
    before the manager did: the connections of the manager's own making. *)
Definition own (base : list jsstring) (b : Bus.bus service) : list jsstring :=
  filter (fun a => negb (includes base a)) (actives (behind b)).

(** A successful [addWiredConnection] from [w] to [w']: the registry was
    run first and returned, leaving no connection of the manager's own; then
    [w'] holds the reversal of the one connection it has, and the connection
    and profile that [w] held are gone, before and after the set-up. *)
Definition renewed (base : list jsstring) (w w' : world service) : Prop :=
  exists a c b1,
    call (Teardown.fn (wired w)) (bus w) = (Returned tt, b1)
    /\ own base b1 = []
    /\ wired w' = Teardown.mk (reversal a c)
    /\ own base (bus w') = [a]
    /\ In c (profiles (behind (bus w')))
    /\ forall a0 c0,
        wired w = Teardown.mk (reversal a0 c0) ->
        ~ In a0 (actives (behind b1)) /\ ~ In c0 (profiles (behind b1))
        /\ ~ In a0 (actives (behind (bus w'))) /\ ~ In c0 (profiles (behind (bus w'))).

(** What holds of the wired Mode between two calls: the registry is idle
    and the manager has no connection, or the registry holds the reversal
    of a connection the service handed out earlier, which is the manager's
    only connection unless an interrupted teardown already removed it. *)
Definition tracked (base : list jsstring) (w : world service) : Prop :=
  let n := behind (bus w) in
  fresh_names n
  /\ ((wired w = Teardown.new noop /\ actives n = base)
      \/ exists k j,
          wired w = Teardown.mk (reversal (active_path k) (profile_path j))
          /\ (k < next_active n)%nat /\ (j < next_profile n)%nat
          /\ ~ In (active_path k) base
          /\ (actives n = base ++ [active_path k] \/ actives n = base)).

End Service.

(** ** Vocabulary of the statements *)

Module Vocabulary.
Import NetworkManager.

Inductive mode : Type := Wired | Wireless.

(** A call of one of the two [add...Connection] methods. *)
Inductive invocation : Type :=
| AddWired (args : WiredArgs)
| AddWireless (args : WirelessArgs).

Definition mode_of (r : invocation) : mode :=
  match r with AddWired _ => Wired | AddWireless _ => Wireless end.

Definition absent {A} (o : option A) : bool :=
  match o with None => true | Some _ => false end.

(** A required per-call parameter is missing. *)
Definition missing_parameter (r : invocation) : bool :=
  match r with
  | AddWired a => absent (wired_nat a)
  | AddWireless a => absent (wl_ssid a) || absent (wl_psk a) || absent (wl_nat a)
  end.

(** The errors thrown on an unusable configuration. *)
Definition ConfigurationError (e : error) : bool :=
  match e with
  | Error m =>
      streq m (js "Wired AP unconfigured")
      || streq m (js "Wired configuration incomplete")
      || streq m (js "Wireless AP unconfigured")
      || streq m (js "Wireless configuration incomplete")
  | _ => false
  end.

(** A call of the method [name] on some object. *)
Definition is_member (name : string) (c : bus_call) : bool :=
  match c with
  | MethodCall _ _ member _ => streq member (js name)
  | _ => false
  end.

Definition is_disconnect (c : bus_call) : bool :=
  match c with Disconnect => true | _ => false end.

(** Requests that undo earlier work. *)
Definition is_cleanup (c : bus_call) : bool :=
  is_member "Delete" c || is_member "DeactivateConnection" c.

(** The descriptors handed to [AddConnectionUnsaved] among some requests. *)
Fixpoint registered_descriptors (cs : list bus_call) : list value :=
  match cs with
  | [] => []
  | MethodCall _ _ member [d] :: cs' =>
      if streq member (js "AddConnectionUnsaved")
      then d :: registered_descriptors cs'
      else registered_descriptors cs'
  | _ :: cs' => registered_descriptors cs'
  end.

(** A Wi-Fi descriptor that carries a WPA-PSK block with a key. *)
Definition secured (d : value) : Prop :=
  exists psk,
    Descriptor.securityBlock d
    = Some (VObj [ (js "key-mgmt", Variant (js "s") (VStr (js "wpa-psk")));
                   (js "psk", Variant (js "s") (VStr psk)) ]).

Section Manager.
Context {B : Type} `{Host B}.

Definition static_configuration (m : mode) (w : world B) : option jsstring :=
  match options w with
  | None => None
  | Some o => match m with Wired => opt_wired o | Wireless => opt_wireless o end
  end.

Definition registry (m : mode) (w : world B) : Teardown.t closure :=
  match m with Wired => wired w | Wireless => wireless w end.

Definition perform (r : invocation) : M (world B) jsstring :=
  match r with
  | AddWired a => addWiredConnection a
  | AddWireless a => addWirelessConnection a
  end.

(** The descriptor a valid request builds from the random token. *)
Definition descriptor (r : invocation) (rnd : jsstring) : option value :=
  match r with
  | AddWired a =>
      match wired_nat a with
      | Some nat => Some (Descriptor.wiredTemplate rnd (method_of_nat nat))
      | None => None
      end
  | AddWireless a =>
      match wl_ssid a, wl_psk a, wl_nat a with
      | Some ssid, Some psk, Some nat =>
          Some (Descriptor.wirelessTemplate rnd (method_of_nat nat) ssid (Some psk))
      | _, _, _ => None
      end
  end.

(** Registering, resolving the device and activating, in that order. *)
Definition establish (d : value) (iface : jsstring) : M (Bus.bus B) (jsstring * jsstring) :=
  conn <- addConnection d ;;
  device <- getDevice iface ;;
  activeConn <- activateConnection conn device ;;
  ret (activeConn, conn).

(** The world with the bus handle and one registry replaced. *)
Definition with_bus (b : Bus.bus B) (w : world B) : world B :=
  mkWorld (options w) b (wired w) (wireless w) (listeners w) (console w).

Definition with_registry (m : mode) (t : Teardown.t closure) (w : world B) : world B :=
  match m with
  | Wired => mkWorld (options w) (bus w) t (wireless w) (listeners w) (console w)
  | Wireless => mkWorld (options w) (bus w) (wired w) t (listeners w) (console w)
  end.

(** The listeners left once [teardown] has removed itself. *)
Definition deregistered (w : world B) : list registration :=
  remove_last SIGTERM teardown_method
              (remove_last SIGINT teardown_method (listeners w)).

(** What [teardown] does after a step, as the signal tells. *)
Definition finish (signal : option jsstring) : M (world B) unit :=
  match signal with
  | Some s =>
      if streq s SIGINT then exit (128 + signals_SIGINT)
      else if streq s SIGTERM then exit (128 + signals_SIGTERM)
      else ret tt
  | None => ret tt
  end.

(** The requests the manager made between two states of the handle. *)
Definition requested (b b' : Bus.bus B) (cs : list bus_call) : Prop :=
  calls b' = calls b ++ cs.

(** A computation that makes only requests satisfying [P]. *)
Definition only (P : bus_call -> Prop) {A} (m : M (Bus.bus B) A) : Prop :=
  forall b o b', m b = (o, b') ->
                 exists cs, requested b b' cs /\ Forall P cs.

Definition only_w (P : bus_call -> Prop) {A} (m : M (world B) A) : Prop :=
  forall w o w', m w = (o, w') ->
                 exists cs, requested (bus w) (bus w') cs /\ Forall P cs.

End Manager.

End Vocabulary.

(** ** Concrete runs on the service *)

Module Scenario.
Import NetworkManager Service Vocabulary.

(** The wired access point is up. *)
Definition wired_up : world service :=
  snd (addWiredConnection (mkWired (Some true)) (fresh [])).

(** Both access points are up. *)
Definition both_up : world service :=
  snd (addWirelessConnection
         (mkWireless (Some (js "myssid")) (Some (js "mypsk")) (Some true)) wired_up).

(** The service does not answer the next request. *)
Definition unreachable (w : world service) : world service := with_faults [true] w.

(** A host without the configured ethernet device. *)
Definition no_eth0 : world service :=
  constructor both_modes
              (mkBus (mkService (mkNm [] [] [] 0 0) [] (js "0.4fzyo82mvyr")) [])
              default_teardowns.

(** The one-character string U+20AC (the euro sign). *)
Definition euro : jsstring := [8364].

Definition no_reply : error := Service.no_reply.

Definition active0 : jsstring := active_path 0.
Definition profile0 : jsstring := profile_path 0.
Definition active1 : jsstring := active_path 1.
Definition profile1 : jsstring := profile_path 1.

End Scenario.

(** ** The requests of a set-up *)

Module Protocol.
Import NetworkManager Vocabulary.

Definition other (m : mode) : mode :=
  match m with Wired => Wireless | Wireless => Wired end.

(** A proxy lookup on an object, followed by one call of a method of it. *)
Definition lookup_then_call (p iface member : jsstring) (args : list value) : list bus_call :=
  [GetProxyObject (@NM) p; MethodCall p iface member args].

(** Registration of [d], resolution of [iface], activation of [conn] on
    [device]: the six requests of a set-up that goes through. *)
Definition setup_requests (d : value) (iface conn device : jsstring) : list bus_call :=
  lookup_then_call (@Settings_path) (@Settings_iface) (js "AddConnectionUnsaved") [d]
  ++ lookup_then_call (@NM_path) (@NM) (js "GetDeviceByIpIface") [VStr iface]
  ++ lookup_then_call (@NM_path) (@NM) (js "ActivateConnection")
                      [VStr conn; VStr device; VStr (js "/")].

Section Manager.
Context {B : Type} `{Host B}.

(** The world with one more line on the console. *)
Definition with_line (line : jsstring) (w : world B) : world B :=
  mkWorld (options w) (bus w) (wired w) (wireless w) (listeners w) (console w ++ [line]).

(** The handle once the random token of a set-up has been drawn. *)
Definition drawn (b : Bus.bus B) : Bus.bus B :=
  mkBus (snd (host_random (remote b))) (calls b).

Definition token (b : Bus.bus B) : jsstring := fst (host_random (remote b)).

End Manager.


End Protocol.

(** * Properties *)

Unset Implicit Arguments.

(** ** Strings and descriptors *)

Lemma streq_true (a b : jsstring) : streq a b = true <-> a = b.
Proof.
  unfold streq. destruct (list_eq_dec Z.eq_dec a b); split; congruence.
Qed.

Lemma streq_refl (a : jsstring) : streq a a = true.
Proof. now apply streq_true. Qed.

Lemma streq_false (a b : jsstring) : streq a b = false <-> a <> b.
Proof.
  unfold streq. destruct (list_eq_dec Z.eq_dec a b); split; congruence.
Qed.

Lemma includes_In (xs : list jsstring) (x : jsstring) :
  includes xs x = true <-> In x xs.
Proof.
  unfold includes. rewrite existsb_exists. split.
  - intros [y [Hy E]]. apply streq_true in E. now subst.
  - intros Hx. exists x. split; [assumption | apply streq_refl].
Qed.

Lemma includes_not_In (xs : list jsstring) (x : jsstring) :
  includes xs x = false <-> ~ In x xs.
Proof.
  rewrite <- includes_In. destruct (includes xs x); split; congruence.
Qed.

Lemma charCodeAt_nth (pre : jsstring) (c : Z) (post : jsstring) :
  charCodeAt (pre ++ c :: post) (List.length pre) = VNum c.
Proof.
  unfold charCodeAt. rewrite nth_error_app2 by lia.
  now rewrite Nat.sub_diag.
Qed.

(** The loop, started at index [length pre] of [pre ++ rest] with enough
    fuel, pushes the code units of [rest] in order. *)
Lemma stringToArrayOfBytes_loop_spec (rest pre : jsstring) (fuel : nat) (bytes : list value) :
  (List.length rest <= fuel)%nat ->
  Descriptor.stringToArrayOfBytes_loop (pre ++ rest) fuel (List.length pre) bytes
  = bytes ++ map VNum rest.
Proof.
  revert rest pre bytes.
  induction fuel as [|fuel IH]; intros rest pre bytes Hfuel.
  - destruct rest; [|simpl in Hfuel; lia]. simpl. now rewrite app_nil_r.
  - simpl. destruct rest as [|c rest].
    + rewrite app_nil_r.
      replace (List.length pre <? List.length pre)%nat with false
        by (symmetry; apply Nat.ltb_irrefl).
      simpl. now rewrite app_nil_r.
    + replace (List.length pre <? List.length (pre ++ c :: rest))%nat with true
        by (symmetry; apply Nat.ltb_lt; rewrite length_app; simpl; lia).
      rewrite charCodeAt_nth.
      replace (pre ++ c :: rest) with ((pre ++ [c]) ++ rest)
        by (rewrite <- app_assoc; reflexivity).
      replace (S (List.length pre)) with (List.length (pre ++ [c]))
        by (rewrite length_app; simpl; lia).
      rewrite IH by (simpl in Hfuel; lia).
      rewrite <- app_assoc. reflexivity.
Qed.

Lemma stringToArrayOfBytes_map (str : jsstring) :
  Descriptor.stringToArrayOfBytes str = map VNum str.
Proof.
  unfold Descriptor.stringToArrayOfBytes.
  exact (stringToArrayOfBytes_loop_spec str [] (List.length str) [] (Nat.le_refl _)).
Qed.

(** On a string whose code units are all below 256 (ASCII, Latin-1) the
    result is an array of octets. *)
Lemma stringToArrayOfBytes_latin1 (str : jsstring) :
  Forall (fun c => 0 <= c < 256) str ->
  forallb is_byte (Descriptor.stringToArrayOfBytes str) = true.
Proof.
  rewrite stringToArrayOfBytes_map. intros Hstr.
  apply forallb_forall. intros v Hv.
  apply in_map_iff in Hv. destruct Hv as [c [<- Hc]].
  rewrite Forall_forall in Hstr. specialize (Hstr c Hc).
  simpl. apply andb_true_iff. split; [apply Z.leb_le | apply Z.ltb_lt]; lia.
Qed.

(** The example of the specification: [wirelessTemplate('shared', 'myssid',
    'mypsk')]. *)
Lemma wirelessTemplate_example (r : jsstring) :
  let d := Descriptor.wirelessTemplate r (js "shared") (js "myssid") (Some (js "mypsk")) in
  Descriptor.ssidField d
  = Some (Variant (js "ay") (VArr (map VNum [109; 121; 115; 115; 105; 100])))
  /\ Descriptor.ipv4Method d = Some (Variant (js "s") (VStr (js "shared")))
  /\ Descriptor.securityBlock d
     = Some (VObj [ (js "key-mgmt", Variant (js "s") (VStr (js "wpa-psk")));
                    (js "psk", Variant (js "s") (VStr (js "mypsk"))) ]).
Proof. repeat split. Qed.

(** C6 (counterexample): with the key omitted the descriptor still has its
    security block, holding an undefined key. *)
Lemma wirelessTemplate_without_psk_has_security_block :
  Descriptor.securityBlock
    (Descriptor.wirelessTemplate (js "0.4fzyo82mvyr") (js "shared") (js "myssid") None)
  = Some (VObj [ (js "key-mgmt", Variant (js "s") (VStr (js "wpa-psk")));
                 (js "psk", Variant (js "s") VUndefined) ])
  /\ Descriptor.securityBlock
       (Descriptor.wirelessTemplate (js "0.4fzyo82mvyr") (js "shared") (js "myssid") None)
     <> None.
Proof. split; [reflexivity | discriminate]. Qed.

(** C6 (amended): for every method, ssid and psk the wireless descriptor
    has the WPA-PSK security block, with key management [wpa-psk] and the
    key exactly as passed; no input makes the builder leave the block out. *)
Theorem wirelessTemplate_always_has_security_block
        (r method ssid : jsstring) (psk : option jsstring) :
  Descriptor.securityBlock (Descriptor.wirelessTemplate r method ssid psk)
  = Some (VObj [ (js "key-mgmt", Variant (js "s") (VStr (js "wpa-psk")));
                 (js "psk", Variant (js "s") (of_opt psk)) ]).
Proof. reflexivity. Qed.

(** C9 (failing input): for the ssid made of the single character U+20AC
    the field tagged [ay] holds the number 8364, which is no octet, while
    the rest of the descriptor is as for any other ssid. *)
Theorem wirelessTemplate_ssid_not_octets (r : jsstring) :
  let d := Descriptor.wirelessTemplate r (js "shared") Scenario.euro (Some (js "mypsk")) in
  wf_string Scenario.euro
  /\ Descriptor.ssidField d = Some (Variant (js "ay") (VArr [VNum 8364]))
  /\ forallb is_byte [VNum 8364] = false.
Proof.
  repeat split.
  repeat constructor; lia.
Qed.

(** ** The Teardown registry *)

Section TeardownProperties.
Import NetworkManager.
Context {B : Type} `{Host B}.

Lemma run_returned (t : Teardown.t closure) (b b' : Bus.bus B) (u : unit) :
  call (Teardown.fn t) b = (Returned u, b') ->
  Teardown.run call noop t b = (Returned tt, b', Teardown.new noop).
Proof. intros E. unfold Teardown.run. now rewrite E. Qed.

Lemma run_thrown (t : Teardown.t closure) (b b' : Bus.bus B) (e : error) :
  call (Teardown.fn t) b = (Thrown e, b') ->
  Teardown.run call noop t b = (Thrown e, b', t).
Proof. intros E. unfold Teardown.run. now rewrite E. Qed.

Lemma run_new (b : Bus.bus B) :
  Teardown.run call noop (Teardown.new noop) b = (Returned tt, b, Teardown.new noop).
Proof. reflexivity. Qed.

Lemma run_inv (t t' : Teardown.t closure) (b b' : Bus.bus B) (o : outcome unit) :
  Teardown.run call noop t b = (o, b', t') ->
  call (Teardown.fn t) b = (o, b')
  /\ (t' = if returned o then Teardown.new noop else t).
Proof.
  unfold Teardown.run. destruct (call (Teardown.fn t) b) as [[[]|e|c] b1];
    intros E; inversion E; subst; auto.
Qed.

End TeardownProperties.

(** C2 (counterexample): the wired access point is up and the service does
    not answer.  [run()] propagates the error and the registry still holds
    the reversal; a second [run()], with the service back, performs it. *)
Lemma run_keeps_action_when_it_throws :
  let t := NetworkManager.wired Scenario.wired_up in
  let first := Teardown.run NetworkManager.call NetworkManager.noop t
                            (NetworkManager.bus (Scenario.unreachable Scenario.wired_up)) in
  let second := Teardown.run NetworkManager.call NetworkManager.noop (snd first)
                             (snd (fst first)) in
  fst (fst first) = Thrown Scenario.no_reply
  /\ snd first = Teardown.mk (NetworkManager.reversal Scenario.active0 Scenario.profile0)
  /\ snd first <> Teardown.new NetworkManager.noop
  /\ fst (fst second) = Returned tt
  /\ Service.active_connections (remote (snd (fst first))) = [Scenario.active0]
  /\ Service.active_connections (remote (snd (fst second))) = [].
Proof.
  vm_compute. repeat split; try reflexivity. discriminate.
Qed.

(** C2 (amended): when [run()] returns normally the held function has been
    reset to the no-op, so a second [run()] returns without touching the bus
    or the registry; when the held function throws (or ends the process),
    [run()] passes that on and the registry holds the same function as
    before. *)
Theorem run_resets_only_on_return
        {B : Type} `{Host B}
        (t : Teardown.t NetworkManager.closure) (b : Bus.bus B) :
  let '(o, b', t') := Teardown.run NetworkManager.call NetworkManager.noop t b in
  (o, b') = NetworkManager.call (Teardown.fn t) b
  /\ match o with
     | Returned _ =>
         t' = Teardown.new NetworkManager.noop
         /\ Teardown.run NetworkManager.call NetworkManager.noop t' b' = (Returned tt, b', t')
     | _ => t' = t
     end.
Proof.
  unfold Teardown.run.
  destruct (NetworkManager.call (Teardown.fn t) b) as [[[]|e|c] b1]; repeat split.
Qed.

(** ** Which requests a computation makes *)

Section Requests.
Import NetworkManager Vocabulary.
Context {B : Type} `{Host B}.
Variable P : bus_call -> Prop.

Lemma only_ret {A} (a : A) : only P (ret a : M (Bus.bus B) A).
Proof.
  intros b o b' E. inversion E; subst. exists []. split; [|constructor].
  unfold requested. now rewrite app_nil_r.
Qed.

Lemma only_throw {A} (e : error) : only P (throw e : M (Bus.bus B) A).
Proof.
  intros b o b' E. inversion E; subst. exists []. split; [|constructor].
  unfold requested. now rewrite app_nil_r.
Qed.

Lemma only_bind {A C} (m : M (Bus.bus B) A) (k : A -> M (Bus.bus B) C) :
  only P m -> (forall a, only P (k a)) -> only P (bind m k).
Proof.
  intros Hm Hk b o b' E. unfold bind in E.
  destruct (m b) as [[a|e|c] b1] eqn:Em.
  - destruct (Hm _ _ _ Em) as [cs1 [R1 F1]].
    destruct (Hk a _ _ _ E) as [cs2 [R2 F2]].
    exists (cs1 ++ cs2). split.
    + unfold requested in *. rewrite R2, R1. now rewrite app_assoc.
    + apply Forall_app. now split.
  - inversion E; subst. exact (Hm _ _ _ Em).
  - inversion E; subst. exact (Hm _ _ _ Em).
Qed.

Lemma only_request {A} (c : bus_call) (f : B -> outcome A * B) :
  P c -> only P (request c f).
Proof.
  intros Hc b o b' E. unfold request in E.
  destruct (f (remote b)) as [o1 r]. inversion E; subst.
  exists [c]. split; [reflexivity | now constructor].
Qed.

Lemma only_random : only P random.
Proof.
  intros b o b' E. unfold random in E.
  destruct (host_random (remote b)) as [r s]. inversion E; subst.
  exists []. split; [|constructor]. unfold requested. simpl. now rewrite app_nil_r.
Qed.

Lemma only_getProxyObject (name p : jsstring) :
  P (GetProxyObject name p) -> only P (getProxyObject name p).
Proof.
  intros Hc. unfold getProxyObject. apply only_bind.
  - now apply only_request.
  - intros a. apply only_ret.
Qed.

Lemma only_getInterface (o : ProxyObject) (name : jsstring) :
  only P (getInterface o name : M (Bus.bus B) ClientInterface).
Proof.
  unfold getInterface. destruct (includes (interfaces o) name).
  - apply only_ret.
  - apply only_throw.
Qed.

(** The five private methods ask for a proxy object, then call at most
    one method of it. *)
Hypothesis P_proxy : forall name p, P (GetProxyObject name p).

Lemma only_addConnection (d : value) :
  (forall p i, P (MethodCall p i (js "AddConnectionUnsaved") [d])) ->
  only P (addConnection d).
Proof.
  intros Hd. unfold addConnection.
  apply only_bind; [now apply only_getProxyObject | intros o].
  apply only_bind; [apply only_getInterface | intros con].
  apply only_request, Hd.
Qed.

Lemma only_getDevice (iface : jsstring) :
  (forall p i a, P (MethodCall p i (js "GetDeviceByIpIface") a)) ->
  only P (getDevice iface).
Proof.
  intros Hd. unfold getDevice.
  apply only_bind; [now apply only_getProxyObject | intros o].
  apply only_bind; [apply only_getInterface | intros con].
  apply only_request, Hd.
Qed.

Lemma only_activateConnection (reference device : jsstring) :
  (forall p i a, P (MethodCall p i (js "ActivateConnection") a)) ->
  only P (activateConnection reference device).
Proof.
  intros Hd. unfold activateConnection.
  apply only_bind; [now apply only_getProxyObject | intros o].
  apply only_bind; [apply only_getInterface | intros con].
  apply only_request, Hd.
Qed.

Lemma only_deactivateConnection (reference : jsstring) :
  (forall p i a, P (MethodCall p i (js "DeactivateConnection") a)) ->
  only P (deactivateConnection reference).
Proof.
  intros Hd. unfold deactivateConnection.
  apply only_bind; [now apply only_getProxyObject | intros o].
  destruct (includes (nodes o) reference); [|apply only_ret].
  apply only_bind; [now apply only_getProxyObject | intros o'].
  apply only_bind; [apply only_getInterface | intros con].
  apply only_request, Hd.
Qed.

Lemma only_removeConnection (reference : jsstring) :
  (forall p i a, P (MethodCall p i (js "Delete") a)) ->
  only P (removeConnection reference).
Proof.
  intros Hd. unfold removeConnection.
  apply only_bind; [now apply only_getProxyObject | intros o].
  destruct (includes (nodes o) reference); [|apply only_ret].
  apply only_bind; [now apply only_getProxyObject | intros o'].
  apply only_bind; [apply only_getInterface | intros con].
  apply only_request, Hd.
Qed.

Lemma only_call (f : closure) :
  (forall p i a, P (MethodCall p i (js "DeactivateConnection") a)) ->
  (forall p i a, P (MethodCall p i (js "Delete") a)) ->
  only P (call f).
Proof.
  intros Hd Hr. destruct f as [|a c|g]; simpl.
  - apply only_ret.
  - apply only_bind; [now apply only_deactivateConnection | intros _].
    now apply only_removeConnection.
  - intros b o b' E. destruct (g (remote b)) as [o1 r]. inversion E; subst.
    exists []. split; [|constructor]. unfold requested. simpl. now rewrite app_nil_r.
Qed.

Lemma only_establish (d : value) (iface : jsstring) :
  (forall p i, P (MethodCall p i (js "AddConnectionUnsaved") [d])) ->
  (forall p i a, P (MethodCall p i (js "GetDeviceByIpIface") a)) ->
  (forall p i a, P (MethodCall p i (js "ActivateConnection") a)) ->
  only P (establish d iface).
Proof.
  intros Ha Hg Hc. unfold establish.
  apply only_bind; [now apply only_addConnection | intros conn].
  apply only_bind; [now apply only_getDevice | intros device].
  apply only_bind; [now apply only_activateConnection | intros activeConn].
  apply only_ret.
Qed.

(** The same, for the methods that work on the whole manager. *)
Lemma only_w_ret {A} (a : A) : only_w P (ret a : M (world B) A).
Proof.
  intros w o w' E. inversion E; subst. exists []. split; [|constructor].
  unfold requested. now rewrite app_nil_r.
Qed.

Lemma only_w_bind {A C} (m : M (world B) A) (k : A -> M (world B) C) :
  only_w P m -> (forall a, only_w P (k a)) -> only_w P (bind m k).
Proof.
  intros Hm Hk w o w' E. unfold bind in E.
  destruct (m w) as [[a|e|c] w1] eqn:Em.
  - destruct (Hm _ _ _ Em) as [cs1 [R1 F1]].
    destruct (Hk a _ _ _ E) as [cs2 [R2 F2]].
    exists (cs1 ++ cs2). split.
    + unfold requested in *. rewrite R2, R1. now rewrite app_assoc.
    + apply Forall_app. now split.
  - inversion E; subst. exact (Hm _ _ _ Em).
  - inversion E; subst. exact (Hm _ _ _ Em).
Qed.

Lemma only_w_on_bus {A} (m : M (Bus.bus B) A) : only P m -> only_w P (on_bus m).
Proof.
  intros Hm w o w' E. unfold on_bus in E.
  destruct (m (bus w)) as [o1 b1] eqn:Em. inversion E; subst.
  exact (Hm _ _ _ Em).
Qed.

Lemma only_w_silent {A} (m : M (world B) A) :
  (forall w, bus (snd (m w)) = bus w) -> only_w P m.
Proof.
  intros Hm w o w' E. exists []. split; [|constructor].
  unfold requested. rewrite app_nil_r. specialize (Hm w). rewrite E in Hm.
  simpl in Hm. now rewrite Hm.
Qed.

Lemma only_w_run (m : mode) :
  (forall f, only P (call f)) ->
  only_w P (match m with Wired => run_wired | Wireless => run_wireless end).
Proof.
  intros Hf w o w' E. destruct m.
  - unfold run_wired in E.
    destruct (Teardown.run call noop (wired w) (bus w)) as [[o1 b1] t1] eqn:Er.
    inversion E; subst. apply run_inv in Er. destruct Er as [Er _].
    exact (Hf _ _ _ _ Er).
  - unfold run_wireless in E.
    destruct (Teardown.run call noop (wireless w) (bus w)) as [[o1 b1] t1] eqn:Er.
    inversion E; subst. apply run_inv in Er. destruct Er as [Er _].
    exact (Hf _ _ _ _ Er).
Qed.

End Requests.

(** ** Validation of the configuration *)

Section Validation.
Import NetworkManager Vocabulary.
Context {B : Type} `{Host B}.

Lemma registered_descriptors_app (cs1 cs2 : list bus_call) :
  registered_descriptors (cs1 ++ cs2)
  = registered_descriptors cs1 ++ registered_descriptors cs2.
Proof.
  induction cs1 as [|c cs1 IH]; [reflexivity|].
  simpl. destruct c as [| | p i m [|d [|d' a]] |]; try exact IH.
  destruct (streq m (js "AddConnectionUnsaved")); simpl; now rewrite IH.
Qed.

Lemma registered_descriptors_Forall (Q : value -> Prop) (cs : list bus_call) :
  Forall (fun c => Forall Q (registered_descriptors [c])) cs ->
  Forall Q (registered_descriptors cs).
Proof.
  induction 1 as [|c cs Hc _ IH]; [constructor|].
  change (c :: cs) with ([c] ++ cs).
  rewrite registered_descriptors_app. apply Forall_app. now split.
Qed.

Lemma registered_descriptors_other (p i m : jsstring) (a : list value) :
  streq m (js "AddConnectionUnsaved") = false ->
  registered_descriptors [MethodCall p i m a] = [].
Proof.
  intros E. simpl. destruct a as [|d [|d' a]]; try reflexivity. now rewrite E.
Qed.

Lemma wirelessTemplate_secured (r method ssid psk : jsstring) :
  secured (Descriptor.wirelessTemplate r method ssid (Some psk)).
Proof. exists psk. reflexivity. Qed.

(** Whatever the registry holds, running it registers no descriptor. *)
Lemma call_registers_nothing (Q : value -> Prop) (f : closure) :
  only (fun c => Forall Q (registered_descriptors [c])) (call f).
Proof.
  apply only_call.
  - intros; constructor.
  - intros. now rewrite registered_descriptors_other.
  - intros. now rewrite registered_descriptors_other.
Qed.

Lemma addWirelessConnection_registers_secured (args : WirelessArgs) :
  only_w (fun c => Forall secured (registered_descriptors [c]))
         (addWirelessConnection args).
Proof.
  intros w o w' E. unfold addWirelessConnection in E.
  assert (Hnone : forall e, (throw e : M (world B) jsstring) w = (o, w') ->
                            exists cs, requested (bus w) (bus w') cs
                                       /\ Forall (fun c => Forall secured (registered_descriptors [c])) cs).
  { intros e E'. inversion E'; subst. exists []. split; [|constructor].
    unfold requested. now rewrite app_nil_r. }
  destruct (options w) as [opts|]; [|now apply (Hnone _ E)].
  destruct (opt_wireless opts) as [iface|]; [|now apply (Hnone _ E)].
  destruct (wl_ssid args) as [ssid|]; [|now apply (Hnone _ E)].
  destruct (wl_psk args) as [psk|]; [|now apply (Hnone _ E)].
  destruct (wl_nat args) as [nat|]; [|now apply (Hnone _ E)].
  revert E. generalize w o w'. clear Hnone.
  assert (Hp : forall name p,
             Forall secured (registered_descriptors [GetProxyObject name p]))
    by (intros; constructor).
  apply only_w_bind.
  { apply (only_w_run _ Wireless). apply call_registers_nothing. }
  intros _. apply only_w_bind.
  { apply only_w_on_bus, only_random. }
  intros r. apply only_w_bind.
  { apply only_w_on_bus, only_addConnection; [exact Hp|].
    intros p i. simpl. constructor; [apply wirelessTemplate_secured | constructor]. }
  intros conn. apply only_w_bind.
  { apply only_w_on_bus, only_getDevice; [exact Hp|].
    intros. now rewrite registered_descriptors_other. }
  intros device. apply only_w_bind.
  { apply only_w_on_bus, only_activateConnection; [exact Hp|].
    intros. now rewrite registered_descriptors_other. }
  intros activeConn. apply only_w_bind.
  { now apply only_w_silent. }
  intros _. apply only_w_bind.
  { now apply only_w_silent. }
  intros _. apply only_w_ret.
Qed.

Lemma addWirelessConnection_without_psk (w : world B) (args : WirelessArgs) :
  wl_psk args = None ->
  exists e, addWirelessConnection args w = (Thrown e, w)
            /\ ConfigurationError e = true.
Proof.
  intros Hpsk. unfold addWirelessConnection. rewrite Hpsk.
  destruct (options w) as [[ow [iface|]]|]; try (eexists; split; reflexivity).
  destruct (wl_ssid args); eexists; split; reflexivity.
Qed.

End Validation.

(** C5: when the Mode has no static configuration, or a required per-call
    parameter is missing ([nat] for wired; [ssid], [psk] or [nat] for
    wireless), the call throws one of the configuration errors and the
    manager, the bus handle and the external state are exactly as before:
    no request was made and the Mode's registry was not run. *)
Theorem invalid_request_fails_fast
        {B : Type} `{Host B} (w : NetworkManager.world B) (r : Vocabulary.invocation) :
  Vocabulary.static_configuration (Vocabulary.mode_of r) w = None
  \/ Vocabulary.missing_parameter r = true ->
  exists e, Vocabulary.perform r w = (Thrown e, w)
            /\ Vocabulary.ConfigurationError e = true.
Proof.
  unfold Vocabulary.static_configuration, Vocabulary.perform.
  destruct r as [[nat]|[ssid psk nat]];
    unfold NetworkManager.addWiredConnection, NetworkManager.addWirelessConnection;
    cbn [Vocabulary.mode_of Vocabulary.missing_parameter NetworkManager.wired_nat
         NetworkManager.wl_ssid NetworkManager.wl_psk NetworkManager.wl_nat];
    intros [Hs|Hp].
  - destruct (NetworkManager.options w) as [[ow owl]|];
      [cbn in Hs; subst ow|]; eexists; split; reflexivity.
  - destruct nat; [discriminate|].
    destruct (NetworkManager.options w) as [[[iface|] owl]|];
      eexists; split; reflexivity.
  - destruct (NetworkManager.options w) as [[ow owl]|];
      [cbn in Hs; subst owl|]; eexists; split; reflexivity.
  - destruct (NetworkManager.options w) as [[ow [iface|]]|];
      try (eexists; split; reflexivity).
    destruct ssid, psk, nat; try discriminate; eexists; split; reflexivity.
Qed.

(** C5 (witness): [addWiredConnection({})] on a configured manager. *)
Lemma invalid_request_fails_fast_witness :
  exists e,
    Vocabulary.perform (Vocabulary.AddWired (NetworkManager.mkWired None)) (Service.fresh [])
    = (Thrown e, Service.fresh [])
    /\ Vocabulary.ConfigurationError e = true.
Proof.
  apply (invalid_request_fails_fast (Service.fresh [])
                                    (Vocabulary.AddWired (NetworkManager.mkWired None))).
  right. reflexivity.
Defined.

(** C10: a call of [addWirelessConnection] without [psk] throws with the
    manager, the bus handle and the external state untouched; and in every
    call every descriptor handed to [AddConnectionUnsaved] carries the
    WPA-PSK block with a key, so no open network is ever registered. *)
Theorem psk_is_required
        {B : Type} `{Host B} (w : NetworkManager.world B)
        (args : NetworkManager.WirelessArgs)
        (o : outcome jsstring) (w' : NetworkManager.world B) :
  NetworkManager.addWirelessConnection args w = (o, w') ->
  (NetworkManager.wl_psk args = None ->
   (exists e, o = Thrown e /\ Vocabulary.ConfigurationError e = true) /\ w' = w)
  /\ exists cs,
      Vocabulary.requested (NetworkManager.bus w) (NetworkManager.bus w') cs
      /\ Forall Vocabulary.secured (Vocabulary.registered_descriptors cs).
Proof.
  intros E. split.
  - intros Hpsk.
    destruct (addWirelessConnection_without_psk w args Hpsk) as [e [E' He]].
    rewrite E in E'. inversion E'; subst. split; [now exists e | reflexivity].
  - destruct (addWirelessConnection_registers_secured args w o w' E) as [cs [R F]].
    exists cs. split; [exact R|]. now apply registered_descriptors_Forall.
Qed.

(** C10 (witness): a call with [ssid] and [nat] but no [psk]. *)
Lemma psk_is_required_witness :
  let args := NetworkManager.mkWireless (Some (js "myssid")) None (Some true) in
  let run := NetworkManager.addWirelessConnection args (Service.fresh []) in
  (NetworkManager.wl_psk args = None ->
   (exists e, fst run = Thrown e /\ Vocabulary.ConfigurationError e = true)
   /\ snd run = Service.fresh [])
  /\ exists cs,
      Vocabulary.requested (NetworkManager.bus (Service.fresh []))
                           (NetworkManager.bus (snd run)) cs
      /\ Forall Vocabulary.secured (Vocabulary.registered_descriptors cs).
Proof.
  intros args run.
  apply (psk_is_required (Service.fresh []) args (fst run) (snd run)).
  reflexivity.
Defined.

(** ** Removal and deactivation by reference *)

Section ByReference.
Import NetworkManager Vocabulary.
Context {B : Type} `{Host B}.

Lemma getProxyObject_returned (name p : jsstring) (b : Bus.bus B)
      (ns ifs : list jsstring) (r : B) :
  host_getProxyObject name p (remote b) = (Returned (ns, ifs), r) ->
  getProxyObject name p b
  = (Returned (mkProxy p ns ifs), mkBus r (calls b ++ [GetProxyObject name p])).
Proof.
  intros E. unfold getProxyObject, bind, request. now rewrite E.
Qed.

Lemma getInterface_listed (o : ProxyObject) (name : jsstring) (b : Bus.bus B) :
  In name (interfaces o) ->
  getInterface o name b = (Returned (mkInterface (path o) name), b).
Proof.
  intros Hin. unfold getInterface.
  now replace (includes (interfaces o) name) with true
    by (symmetry; now apply includes_In).
Qed.

Lemma removeConnection_stale (reference : jsstring) (b : Bus.bus B)
      (ns ifs : list jsstring) (r : B) :
  host_getProxyObject NM Settings_path (remote b) = (Returned (ns, ifs), r) ->
  ~ In reference ns ->
  removeConnection reference b
  = (Returned tt, mkBus r (calls b ++ [GetProxyObject NM Settings_path])).
Proof.
  intros E Hout. unfold removeConnection, bind at 1.
  rewrite (getProxyObject_returned _ _ _ _ _ _ E). cbn [nodes].
  now replace (includes ns reference) with false
    by (symmetry; now apply includes_not_In).
Qed.

Lemma removeConnection_listed (reference : jsstring) (b : Bus.bus B)
      (ns ifs : list jsstring) (r : B) :
  host_getProxyObject NM Settings_path (remote b) = (Returned (ns, ifs), r) ->
  In reference ns ->
  removeConnection reference b
  = (o <- getProxyObject NM reference ;;
     con <- getInterface o Connection_iface ;;
     Delete con)
      (mkBus r (calls b ++ [GetProxyObject NM Settings_path])).
Proof.
  intros E Hin. unfold removeConnection, bind at 1.
  rewrite (getProxyObject_returned _ _ _ _ _ _ E). cbn [nodes].
  now replace (includes ns reference) with true
    by (symmetry; now apply includes_In).
Qed.

Lemma deactivateConnection_stale (reference : jsstring) (b : Bus.bus B)
      (ns ifs : list jsstring) (r : B) :
  host_getProxyObject NM ActiveConnection_path (remote b) = (Returned (ns, ifs), r) ->
  ~ In reference ns ->
  deactivateConnection reference b
  = (Returned tt, mkBus r (calls b ++ [GetProxyObject NM ActiveConnection_path])).
Proof.
  intros E Hout. unfold deactivateConnection, bind at 1.
  rewrite (getProxyObject_returned _ _ _ _ _ _ E). cbn [nodes].
  now replace (includes ns reference) with false
    by (symmetry; now apply includes_not_In).
Qed.

Lemma deactivateConnection_listed (reference : jsstring) (b : Bus.bus B)
      (ns ifs : list jsstring) (r : B) :
  host_getProxyObject NM ActiveConnection_path (remote b) = (Returned (ns, ifs), r) ->
  In reference ns ->
  deactivateConnection reference b
  = (o <- getProxyObject NM NM_path ;;
     con <- getInterface o NM ;;
     DeactivateConnection con reference)
      (mkBus r (calls b ++ [GetProxyObject NM ActiveConnection_path])).
Proof.
  intros E Hin. unfold deactivateConnection, bind at 1.
  rewrite (getProxyObject_returned _ _ _ _ _ _ E). cbn [nodes].
  now replace (includes ns reference) with true
    by (symmetry; now apply includes_In).
Qed.

(** A method call on an object whose proxy and interface are available. *)
Lemma via_proxy {A} (p iface member : jsstring) (args : list value)
      (f : ClientInterface -> B -> outcome A * B)
      (b : Bus.bus B) (ns ifs : list jsstring) (r : B) :
  host_getProxyObject NM p (remote b) = (Returned (ns, ifs), r) ->
  In iface ifs ->
  (o <- getProxyObject NM p ;;
   con <- getInterface o iface ;;
   method con member args (f con)) b
  = (fst (f (mkInterface p iface) r),
     mkBus (snd (f (mkInterface p iface) r))
           (calls b ++ [GetProxyObject NM p; MethodCall p iface member args])).
Proof.
  intros E Hin. unfold bind at 1.
  rewrite (getProxyObject_returned _ _ _ _ _ _ E).
  unfold bind. rewrite getInterface_listed by exact Hin.
  unfold method, request. cbn [remote calls path object_path interface_name].
  destruct (f (mkInterface p iface) r) as [o r']. cbn [fst snd].
  now rewrite <- app_assoc.
Qed.

End ByReference.

(** C7: with the profiles (resp. the active connections) enumerated,
    [removeConnection] requests [Delete] on the reference exactly when the
    reference is among the enumerated profiles, and [deactivateConnection]
    requests [DeactivateConnection] exactly when it is among the enumerated
    active connections; for a reference that is not listed each returns
    normally after the enumeration alone, with nothing else asked of the
    bus. *)
Theorem stale_reference_is_skipped
        {B : Type} `{Host B} (reference : jsstring) (b : Bus.bus B)
        (profiles pifs : list jsstring) (r1 : B)
        (actives aifs : list jsstring) (r2 : B) :
  host_getProxyObject NetworkManager.NM NetworkManager.Settings_path (remote b)
  = (Returned (profiles, pifs), r1) ->
  host_getProxyObject NetworkManager.NM NetworkManager.ActiveConnection_path (remote b)
  = (Returned (actives, aifs), r2) ->
  (* removeConnection: not listed *)
  (~ In reference profiles ->
   NetworkManager.removeConnection reference b
   = (Returned tt,
      mkBus r1 (calls b ++ [GetProxyObject NetworkManager.NM NetworkManager.Settings_path])))
  (* removeConnection: listed, the profile object is reachable *)
  /\ (In reference profiles ->
      forall ns ifs r,
        host_getProxyObject NetworkManager.NM reference r1 = (Returned (ns, ifs), r) ->
        In NetworkManager.Connection_iface ifs ->
        NetworkManager.removeConnection reference b
        = (fst (host_Delete reference r),
           mkBus (snd (host_Delete reference r))
                 (calls b ++ [GetProxyObject NetworkManager.NM NetworkManager.Settings_path;
                              GetProxyObject NetworkManager.NM reference;
                              MethodCall reference NetworkManager.Connection_iface
                                         (js "Delete") []])))
  (* removeConnection: Delete is requested only for a listed reference *)
  /\ (forall o b' cs,
         NetworkManager.removeConnection reference b = (o, b') ->
         Vocabulary.requested b b' cs ->
         existsb (Vocabulary.is_member "Delete") cs = true ->
         In reference profiles)
  (* deactivateConnection: not listed *)
  /\ (~ In reference actives ->
      NetworkManager.deactivateConnection reference b
      = (Returned tt,
         mkBus r2 (calls b ++ [GetProxyObject NetworkManager.NM
                                              NetworkManager.ActiveConnection_path])))
  (* deactivateConnection: listed, the manager object is reachable *)
  /\ (In reference actives ->
      forall ns ifs r,
        host_getProxyObject NetworkManager.NM NetworkManager.NM_path r2
        = (Returned (ns, ifs), r) ->
        In NetworkManager.NM ifs ->
        NetworkManager.deactivateConnection reference b
        = (fst (host_DeactivateConnection reference r),
           mkBus (snd (host_DeactivateConnection reference r))
                 (calls b ++ [GetProxyObject NetworkManager.NM
                                             NetworkManager.ActiveConnection_path;
                              GetProxyObject NetworkManager.NM NetworkManager.NM_path;
                              MethodCall NetworkManager.NM_path NetworkManager.NM
                                         (js "DeactivateConnection") [VStr reference]])))
  (* deactivateConnection: requested only for a listed reference *)
  /\ (forall o b' cs,
         NetworkManager.deactivateConnection reference b = (o, b') ->
         Vocabulary.requested b b' cs ->
         existsb (Vocabulary.is_member "DeactivateConnection") cs = true ->
         In reference actives).
Proof.
  intros Ep Ea. repeat split.
  - now apply removeConnection_stale with (ifs := pifs).
  - intros Hin ns ifs r E Hif.
    rewrite (removeConnection_listed _ _ _ _ _ Ep Hin).
    unfold Delete.
    rewrite (via_proxy reference NetworkManager.Connection_iface (js "Delete") []
                       (fun con => host_Delete (object_path con))
                       (mkBus r1 (calls b ++ [GetProxyObject NetworkManager.NM
                                                             NetworkManager.Settings_path]))
                       ns ifs r E Hif).
    cbn [calls]. now rewrite <- app_assoc.
  - intros o b' cs E R Hcs.
    destruct (in_dec (list_eq_dec Z.eq_dec) reference profiles) as [Hin|Hout]; [exact Hin|].
    rewrite (removeConnection_stale _ _ _ _ _ Ep Hout) in E. inversion E; subst.
    unfold Vocabulary.requested in R. cbn [calls] in R.
    apply app_inv_head in R. subst cs. discriminate Hcs.
  - now apply deactivateConnection_stale with (ifs := aifs).
  - intros Hin ns ifs r E Hif.
    rewrite (deactivateConnection_listed _ _ _ _ _ Ea Hin).
    unfold DeactivateConnection.
    rewrite (via_proxy NetworkManager.NM_path NetworkManager.NM
                       (js "DeactivateConnection") [VStr reference]
                       (fun _ => host_DeactivateConnection reference)
                       (mkBus r2 (calls b ++ [GetProxyObject
                                                NetworkManager.NM
                                                NetworkManager.ActiveConnection_path]))
                       ns ifs r E Hif).
    cbn [calls]. now rewrite <- app_assoc.
  - intros o b' cs E R Hcs.
    destruct (in_dec (list_eq_dec Z.eq_dec) reference actives) as [Hin|Hout]; [exact Hin|].
    rewrite (deactivateConnection_stale _ _ _ _ _ Ea Hout) in E. inversion E; subst.
    unfold Vocabulary.requested in R. cbn [calls] in R.
    apply app_inv_head in R. subst cs. discriminate Hcs.
Qed.

(** C7 (witness): with the wired access point up, the reference of its
    profile is listed among the profiles and not among the active
    connections: [removeConnection] deletes it, [deactivateConnection]
    returns after the enumeration. *)
Lemma stale_reference_is_skipped_witness :
  let b := NetworkManager.bus Scenario.wired_up in
  (fst (NetworkManager.removeConnection Scenario.profile0 b) = Returned tt
   /\ Service.registered_profiles (remote (snd (NetworkManager.removeConnection Scenario.profile0 b))) = [])
  /\ NetworkManager.deactivateConnection Scenario.profile0 b
     = (Returned tt,
        mkBus (remote b)
              (calls b ++ [GetProxyObject NetworkManager.NM
                                          NetworkManager.ActiveConnection_path])).
Proof.
  intros b.
  destruct (stale_reference_is_skipped
              Scenario.profile0 b
              [Scenario.profile0] [NetworkManager.Settings_iface] (remote b)
              [Scenario.active0] [] (remote b))
    as (_ & Hdel & _ & Hskip & _ & _).
  - vm_compute. reflexivity.
  - vm_compute. reflexivity.
  - split.
    + rewrite (Hdel (or_introl eq_refl) [] [NetworkManager.Connection_iface] (remote b)).
      * vm_compute. split; reflexivity.
      * vm_compute. reflexivity.
      * left. reflexivity.
    + apply Hskip. intros [E|[]]. vm_compute in E. discriminate E.
Defined.

(** ** Global teardown *)

Section GlobalTeardown.
Import NetworkManager Vocabulary.
Context {B : Type} `{Host B}.

Lemma teardown_wired_throws (signal : option jsstring) (w : world B)
      (e : error) (b1 : Bus.bus B) :
  call (Teardown.fn (wired w)) (bus w) = (Thrown e, b1) ->
  teardown this_manager signal w
  = (Thrown e,
     mkWorld (options w) b1 (wired w) (wireless w) (deregistered w) (console w)).
Proof.
  intros E. unfold teardown, bind, process_removeListener, this_teardown,
            this_teardowns, run_wired.
  cbn [options bus wired wireless listeners console].
  now rewrite (run_thrown _ _ _ _ E).
Qed.

Lemma teardown_wireless_throws (signal : option jsstring) (w : world B)
      (e : error) (u : unit) (b1 b2 : Bus.bus B) :
  call (Teardown.fn (wired w)) (bus w) = (Returned u, b1) ->
  call (Teardown.fn (wireless w)) b1 = (Thrown e, b2) ->
  teardown this_manager signal w
  = (Thrown e,
     mkWorld (options w) b2 (Teardown.new noop) (wireless w)
             (deregistered w) (console w)).
Proof.
  intros E1 E2. unfold teardown, bind, process_removeListener, this_teardown,
                this_teardowns, run_wired, run_wireless.
  cbn [options bus wired wireless listeners console].
  rewrite (run_returned _ _ _ _ E1).
  cbn [options bus wired wireless listeners console].
  now rewrite (run_thrown _ _ _ _ E2).
Qed.

Lemma teardown_both_return (signal : option jsstring) (w : world B)
      (u1 u2 u3 : unit) (b1 b2 : Bus.bus B) (r3 : B) :
  call (Teardown.fn (wired w)) (bus w) = (Returned u1, b1) ->
  call (Teardown.fn (wireless w)) b1 = (Returned u2, b2) ->
  host_disconnect (remote b2) = (Returned u3, r3) ->
  teardown this_manager signal w
  = finish signal
           (mkWorld (options w) (mkBus r3 (calls b2 ++ [Disconnect]))
                    (Teardown.new noop) (Teardown.new noop)
                    (deregistered w) (console w)).
Proof.
  intros E1 E2 E3. unfold teardown, bind, process_removeListener, this_teardown,
                   this_teardowns, run_wired, run_wireless, on_bus, disconnect, request.
  cbn [options bus wired wireless listeners console].
  rewrite (run_returned _ _ _ _ E1).
  cbn [options bus wired wireless listeners console].
  rewrite (run_returned _ _ _ _ E2).
  cbn [options bus wired wireless listeners console].
  rewrite E3. unfold finish. destruct signal as [s|]; [|reflexivity].
  destruct (streq s SIGINT); [reflexivity|].
  destruct (streq s SIGTERM); reflexivity.
Qed.

Lemma teardown_disconnect_throws (signal : option jsstring) (w : world B)
      (u1 u2 : unit) (e : error) (b1 b2 : Bus.bus B) (r3 : B) :
  call (Teardown.fn (wired w)) (bus w) = (Returned u1, b1) ->
  call (Teardown.fn (wireless w)) b1 = (Returned u2, b2) ->
  host_disconnect (remote b2) = (Thrown e, r3) ->
  teardown this_manager signal w
  = (Thrown e,
     mkWorld (options w) (mkBus r3 (calls b2 ++ [Disconnect]))
             (Teardown.new noop) (Teardown.new noop)
             (deregistered w) (console w)).
Proof.
  intros E1 E2 E3. unfold teardown, bind, process_removeListener, this_teardown,
                   this_teardowns, run_wired, run_wireless, on_bus, disconnect, request.
  cbn [options bus wired wireless listeners console].
  rewrite (run_returned _ _ _ _ E1).
  cbn [options bus wired wireless listeners console].
  rewrite (run_returned _ _ _ _ E2).
  cbn [options bus wired wireless listeners console].
  now rewrite E3.
Qed.

(** The registrations are removed before anything else is done, and
    nothing later touches them. *)
Lemma teardown_deregisters_first (signal : option jsstring) (w : world B) :
  listeners (snd (teardown this_manager signal w)) = deregistered w.
Proof.
  unfold teardown, bind, process_removeListener, this_teardown,
  this_teardowns, run_wired, run_wireless, on_bus, disconnect, request.
  cbn [options bus wired wireless listeners console].
  destruct (Teardown.run call noop (wired w) (bus w)) as [[[u1|e1|c1] b1] t1];
    try reflexivity.
  cbn [options bus wired wireless listeners console].
  destruct (Teardown.run call noop (wireless w) b1) as [[[u2|e2|c2] b2] t2];
    try reflexivity.
  cbn [options bus wired wireless listeners console].
  destruct (host_disconnect (remote b2)) as [[u3|e3|c3] r3]; try reflexivity.
  destruct signal as [s|]; [|reflexivity].
  destruct (streq s SIGINT); [reflexivity|].
  destruct (streq s SIGTERM); reflexivity.
Qed.

(** A manager alone in its process leaves no listener behind. *)
Lemma deregistered_constructor
      (opts : option NetworkOptions) (b : Bus.bus B)
      (tds : Teardown.t closure * Teardown.t closure) :
  deregistered (constructor opts b tds) = [].
Proof. reflexivity. Qed.

(** Installed by the constructor as a bare function, [teardown] is called
    by Node with the [process] object as receiver: [this.teardown] is
    undefined there, [removeListener] rejects it, and nothing else of the
    method runs. *)
Lemma deliver_calls_unbound_method
      (opts : option NetworkOptions) (b : Bus.bus B)
      (tds : Teardown.t closure * Teardown.t closure) (sig : jsstring) :
  sig = SIGINT \/ sig = SIGTERM ->
  deliver sig (constructor opts b tds)
  = (Thrown (TypeError (js "The listener argument must be of type function")),
     constructor opts b tds).
Proof.
  intros [->| ->]; reflexivity.
Qed.

End GlobalTeardown.


(** C1 (counterexample): both access points are up and the service does
    not answer.  [teardown()] throws the bus error of the wired reversal; the
    wireless registry has not been run, both connections are still active,
    and the bus has not been disconnected. *)
Lemma teardown_throws_when_service_is_unreachable :
  let w := Scenario.unreachable Scenario.both_up in
  let run := NetworkManager.teardown NetworkManager.this_manager None w in
  fst run = Thrown Scenario.no_reply
  /\ NetworkManager.wireless (snd run)
     = Teardown.mk (NetworkManager.reversal Scenario.active1 Scenario.profile1)
  /\ Service.active_connections (remote (NetworkManager.bus (snd run)))
     = [Scenario.active0; Scenario.active1]
  /\ existsb Vocabulary.is_disconnect (calls (NetworkManager.bus (snd run))) = false.
Proof. vm_compute. repeat split. Qed.

(** C1 (amended): [teardown()] passes on the first error instead of
    suppressing it.  If the wired action throws, [teardown()] throws that
    error and neither the wireless action nor the disconnect is run; if the
    wireless action throws, the disconnect is skipped; if both return, the
    bus is disconnected, both registries hold the no-op, and [teardown()]
    ends as [disconnect] does. *)
Theorem teardown_propagates_the_first_failure
        {B : Type} `{Host B} (w : NetworkManager.world B) :
  (forall e b1,
      NetworkManager.call (Teardown.fn (NetworkManager.wired w)) (NetworkManager.bus w)
      = (Thrown e, b1) ->
      NetworkManager.teardown NetworkManager.this_manager None w
      = (Thrown e,
         NetworkManager.mkWorld
           (NetworkManager.options w) b1 (NetworkManager.wired w)
           (NetworkManager.wireless w) (Vocabulary.deregistered w)
           (NetworkManager.console w)))
  /\ (forall e b1 b2,
         NetworkManager.call (Teardown.fn (NetworkManager.wired w)) (NetworkManager.bus w)
         = (Returned tt, b1) ->
         NetworkManager.call (Teardown.fn (NetworkManager.wireless w)) b1
         = (Thrown e, b2) ->
         NetworkManager.teardown NetworkManager.this_manager None w
         = (Thrown e,
            NetworkManager.mkWorld
              (NetworkManager.options w) b2 (Teardown.new NetworkManager.noop)
              (NetworkManager.wireless w) (Vocabulary.deregistered w)
              (NetworkManager.console w)))
  /\ (forall b1 b2 r3,
         NetworkManager.call (Teardown.fn (NetworkManager.wired w)) (NetworkManager.bus w)
         = (Returned tt, b1) ->
         NetworkManager.call (Teardown.fn (NetworkManager.wireless w)) b1
         = (Returned tt, b2) ->
         (host_disconnect (remote b2) = (Returned tt, r3) ->
          NetworkManager.teardown NetworkManager.this_manager None w
          = (Returned tt,
             NetworkManager.mkWorld
               (NetworkManager.options w) (mkBus r3 (calls b2 ++ [Disconnect]))
               (Teardown.new NetworkManager.noop) (Teardown.new NetworkManager.noop)
               (Vocabulary.deregistered w) (NetworkManager.console w)))
         /\ (forall e,
                host_disconnect (remote b2) = (Thrown e, r3) ->
                NetworkManager.teardown NetworkManager.this_manager None w
                = (Thrown e,
                   NetworkManager.mkWorld
                     (NetworkManager.options w) (mkBus r3 (calls b2 ++ [Disconnect]))
                     (Teardown.new NetworkManager.noop) (Teardown.new NetworkManager.noop)
                     (Vocabulary.deregistered w) (NetworkManager.console w)))).
Proof.
  split; [|split].
  - intros e b1 E. now apply teardown_wired_throws.
  - intros e b1 b2 E1 E2. now apply teardown_wireless_throws with (u := tt) (b1 := b1).
  - intros b1 b2 r3 E1 E2. split.
    + intros E3.
      now rewrite (teardown_both_return None w tt tt tt b1 b2 r3 E1 E2 E3).
    + intros e E3.
      now apply teardown_disconnect_throws with (u1 := tt) (u2 := tt) (b1 := b1).
Qed.

(** C1 (witness): both access points are up and the service answers;
    [teardown()] returns, with nothing active and both registries reset. *)
Lemma teardown_propagates_the_first_failure_witness :
  let run := NetworkManager.teardown NetworkManager.this_manager None Scenario.both_up in
  fst run = Returned tt
  /\ Service.active_connections (remote (NetworkManager.bus (snd run))) = []
  /\ Service.registered_profiles (remote (NetworkManager.bus (snd run))) = []
  /\ NetworkManager.wired (snd run) = Teardown.new NetworkManager.noop
  /\ NetworkManager.wireless (snd run) = Teardown.new NetworkManager.noop.
Proof.
  pose (w := Scenario.both_up).
  pose (s1 := NetworkManager.call (Teardown.fn (NetworkManager.wired w))
                                  (NetworkManager.bus w)).
  pose (s2 := NetworkManager.call (Teardown.fn (NetworkManager.wireless w)) (snd s1)).
  destruct (teardown_propagates_the_first_failure w) as (_ & _ & Hboth).
  destruct (Hboth (snd s1) (snd s2) (remote (snd s2))) as [Hret _].
  - vm_compute. reflexivity.
  - vm_compute. reflexivity.
  - cbv zeta. fold w. rewrite Hret.
    + vm_compute. repeat split.
    + vm_compute. reflexivity.
Defined.

(** C3 (counterexample): both access points are up, the service does not
    answer, and [teardown] runs for SIGINT.  It throws instead of ending the
    process with status 130, and the wireless action has not been invoked:
    its registry still holds the reversal and its connection is active. *)
Lemma teardown_on_signal_does_not_exit_when_an_action_throws :
  let w := Scenario.unreachable Scenario.both_up in
  let run := NetworkManager.teardown NetworkManager.this_manager (Some SIGINT) w in
  fst run = Thrown Scenario.no_reply
  /\ fst run <> Exited 130
  /\ NetworkManager.wireless (snd run)
     = Teardown.mk (NetworkManager.reversal Scenario.active1 Scenario.profile1)
  /\ In Scenario.active1 (Service.active_connections (remote (NetworkManager.bus (snd run)))).
Proof.
  vm_compute. repeat split; try discriminate. right. left. reflexivity.
Qed.

(** C3 (amended): when [teardown] runs on the manager for SIGINT or
    SIGTERM, it first removes its registration for both signals, whatever
    happens afterwards; if both Teardown Actions and the disconnect return,
    each action has been invoked once (wired, then wireless), both
    registries hold the no-op and the process ends with status 128 plus the
    signal number; if the wired action throws, [teardown] throws that error,
    the wireless action is not invoked and the process is not ended. *)
Theorem teardown_on_signal_exits_after_both_actions
        {B : Type} `{Host B} (w : NetworkManager.world B) (sig : jsstring) (num : Z) :
  (sig = SIGINT /\ num = signals_SIGINT) \/ (sig = SIGTERM /\ num = signals_SIGTERM) ->
  NetworkManager.listeners
    (snd (NetworkManager.teardown NetworkManager.this_manager (Some sig) w))
  = Vocabulary.deregistered w
  /\ (forall b1 b2 r3,
         NetworkManager.call (Teardown.fn (NetworkManager.wired w)) (NetworkManager.bus w)
         = (Returned tt, b1) ->
         NetworkManager.call (Teardown.fn (NetworkManager.wireless w)) b1
         = (Returned tt, b2) ->
         host_disconnect (remote b2) = (Returned tt, r3) ->
         NetworkManager.teardown NetworkManager.this_manager (Some sig) w
         = (Exited (128 + num),
            NetworkManager.mkWorld
              (NetworkManager.options w) (mkBus r3 (calls b2 ++ [Disconnect]))
              (Teardown.new NetworkManager.noop) (Teardown.new NetworkManager.noop)
              (Vocabulary.deregistered w) (NetworkManager.console w)))
  /\ (forall e b1,
         NetworkManager.call (Teardown.fn (NetworkManager.wired w)) (NetworkManager.bus w)
         = (Thrown e, b1) ->
         NetworkManager.teardown NetworkManager.this_manager (Some sig) w
         = (Thrown e,
            NetworkManager.mkWorld
              (NetworkManager.options w) b1 (NetworkManager.wired w)
              (NetworkManager.wireless w) (Vocabulary.deregistered w)
              (NetworkManager.console w))).
Proof.
  intros Hsig. split; [apply teardown_deregisters_first | split].
  - intros b1 b2 r3 E1 E2 E3.
    rewrite (teardown_both_return (Some sig) w tt tt tt b1 b2 r3 E1 E2 E3).
    destruct Hsig as [[-> ->]|[-> ->]]; reflexivity.
  - intros e b1 E. now apply teardown_wired_throws.
Qed.

(** C3 (witness): both access points are up, the service answers, and
    [teardown] runs for SIGINT: the process ends with status 130, nothing is
    active or registered any more, and no listener is left. *)
Lemma teardown_on_signal_exits_after_both_actions_witness :
  let run := NetworkManager.teardown NetworkManager.this_manager (Some SIGINT)
                                     Scenario.both_up in
  fst run = Exited 130
  /\ Service.active_connections (remote (NetworkManager.bus (snd run))) = []
  /\ Service.registered_profiles (remote (NetworkManager.bus (snd run))) = []
  /\ NetworkManager.listeners (snd run) = [].
Proof.
  pose (w := Scenario.both_up).
  pose (s1 := NetworkManager.call (Teardown.fn (NetworkManager.wired w))
                                  (NetworkManager.bus w)).
  pose (s2 := NetworkManager.call (Teardown.fn (NetworkManager.wireless w)) (snd s1)).
  destruct (teardown_on_signal_exits_after_both_actions w SIGINT signals_SIGINT)
    as (_ & Hexit & _).
  - left. split; reflexivity.
  - cbv zeta. fold w. rewrite (Hexit (snd s1) (snd s2) (remote (snd s2))).
    + vm_compute. repeat split.
    + vm_compute. reflexivity.
    + vm_compute. reflexivity.
    + vm_compute. reflexivity.
Defined.

(** ** Setting up a connection *)

Section Setup.
Import NetworkManager Vocabulary.
Context {B : Type} `{Host B}.

(** The three bus steps of a set-up, followed by whatever comes next. *)
Lemma establish_then {C} (d : value) (iface : jsstring)
      (k : jsstring -> jsstring -> M (world B) C) (w : world B) :
  (conn <- on_bus (addConnection d) ;;
   device <- on_bus (getDevice iface) ;;
   activeConn <- on_bus (activateConnection conn device) ;;
   k activeConn conn) w
  = match establish d iface (bus w) with
    | (Returned p, b') => k (fst p) (snd p) (with_bus b' w)
    | (Thrown e, b') => (Thrown e, with_bus b' w)
    | (Exited x, b') => (Exited x, with_bus b' w)
    end.
Proof.
  unfold establish, bind, on_bus, with_bus.
  destruct (addConnection d (bus w)) as [[conn|e|x] b1]; try reflexivity.
  cbn [options bus wired wireless listeners console].
  destruct (getDevice iface b1) as [[device|e|x] b2]; try reflexivity.
  cbn [options bus wired wireless listeners console].
  destruct (activateConnection conn device b2) as [[activeConn|e|x] b3]; reflexivity.
Qed.

Lemma random_eq (b : Bus.bus B) :
  random b = (Returned (fst (host_random (remote b))),
              mkBus (snd (host_random (remote b))) (calls b)).
Proof. unfold random. now destruct (host_random (remote b)). Qed.

(** [addWiredConnection] with a usable configuration, step by step. *)
Lemma addWiredConnection_valid (w : world B) (opts : NetworkOptions)
      (iface : jsstring) (nat : bool) :
  options w = Some opts ->
  opt_wired opts = Some iface ->
  addWiredConnection (mkWired (Some nat)) w
  = match Teardown.run call noop (wired w) (bus w) with
    | (Returned _, b1, t1) =>
        let rnd := fst (host_random (remote b1)) in
        let b1r := mkBus (snd (host_random (remote b1))) (calls b1) in
        match establish (Descriptor.wiredTemplate rnd (method_of_nat nat)) iface b1r with
        | (Returned p, b2) =>
            (Returned iface,
             mkWorld (options w) b2 (Teardown.mk (reversal (fst p) (snd p))) (wireless w)
                     (listeners w) (console w ++ [js "Wired AP; IFACE: " ++ iface]))
        | (Thrown e, b2) =>
            (Thrown e, mkWorld (options w) b2 t1 (wireless w) (listeners w) (console w))
        | (Exited x, b2) =>
            (Exited x, mkWorld (options w) b2 t1 (wireless w) (listeners w) (console w))
        end
    | (Thrown e, b1, t1) =>
        (Thrown e, mkWorld (options w) b1 t1 (wireless w) (listeners w) (console w))
    | (Exited x, b1, t1) =>
        (Exited x, mkWorld (options w) b1 t1 (wireless w) (listeners w) (console w))
    end.
Proof.
  intros Eo Ei. unfold addWiredConnection. rewrite Eo, Ei.
  cbn [wired_nat]. unfold bind at 1. unfold run_wired.
  destruct (Teardown.run call noop (wired w) (bus w)) as [[[u|e|x] b1] t1];
    try (rewrite ?Eo; reflexivity).
  unfold bind at 1. unfold on_bus at 1. rewrite random_eq.
  cbn [options bus wired wireless listeners console].
  rewrite establish_then. unfold with_bus.
  cbn [options bus wired wireless listeners console].
  destruct (establish _ iface _) as [[p|e|x] b2];
    unfold bind, console_log, register_wired, register_wireless, Teardown.register, ret;
    cbn [options bus wired wireless listeners console];
    rewrite ?Eo; reflexivity.
Qed.

(** [addWirelessConnection] with a usable configuration, step by step. *)
Lemma addWirelessConnection_valid (w : world B) (opts : NetworkOptions)
      (iface ssid psk : jsstring) (nat : bool) :
  options w = Some opts ->
  opt_wireless opts = Some iface ->
  addWirelessConnection (mkWireless (Some ssid) (Some psk) (Some nat)) w
  = match Teardown.run call noop (wireless w) (bus w) with
    | (Returned _, b1, t1) =>
        let rnd := fst (host_random (remote b1)) in
        let b1r := mkBus (snd (host_random (remote b1))) (calls b1) in
        match establish (Descriptor.wirelessTemplate rnd (method_of_nat nat) ssid (Some psk))
                        iface b1r with
        | (Returned p, b2) =>
            (Returned iface,
             mkWorld (options w) b2 (wired w) (Teardown.mk (reversal (fst p) (snd p)))
                     (listeners w)
                     (console w ++ [js "Wireless AP; SSID: " ++ ssid ++ js " IFACE: " ++ iface]))
        | (Thrown e, b2) =>
            (Thrown e, mkWorld (options w) b2 (wired w) t1 (listeners w) (console w))
        | (Exited x, b2) =>
            (Exited x, mkWorld (options w) b2 (wired w) t1 (listeners w) (console w))
        end
    | (Thrown e, b1, t1) =>
        (Thrown e, mkWorld (options w) b1 (wired w) t1 (listeners w) (console w))
    | (Exited x, b1, t1) =>
        (Exited x, mkWorld (options w) b1 (wired w) t1 (listeners w) (console w))
    end.
Proof.
  intros Eo Ei. unfold addWirelessConnection. rewrite Eo, Ei.
  cbn [wl_ssid wl_psk wl_nat]. unfold bind at 1. unfold run_wireless.
  destruct (Teardown.run call noop (wireless w) (bus w)) as [[[u|e|x] b1] t1];
    try (rewrite ?Eo; reflexivity).
  unfold bind at 1. unfold on_bus at 1. rewrite random_eq.
  cbn [options bus wired wireless listeners console].
  rewrite establish_then. unfold with_bus.
  cbn [options bus wired wireless listeners console].
  destruct (establish _ iface _) as [[p|e|x] b2];
    unfold bind, console_log, register_wired, register_wireless, Teardown.register, ret;
    cbn [options bus wired wireless listeners console];
    rewrite ?Eo; reflexivity.
Qed.

(** The set-up steps ask for nothing that undoes earlier work. *)
Lemma establish_no_cleanup (d : value) (iface : jsstring)
      (b b' : Bus.bus B) (o : outcome (jsstring * jsstring)) :
  establish d iface b = (o, b') ->
  exists cs, requested b b' cs /\ existsb is_cleanup cs = false.
Proof.
  intros E.
  destruct (only_establish (fun c => is_cleanup c = false)
                           (fun _ _ => eq_refl) d iface
                           (fun _ _ => eq_refl) (fun _ _ _ => eq_refl)
                           (fun _ _ _ => eq_refl) b o b' E) as [cs [R F]].
  exists cs. split; [exact R|].
  clear R. induction F as [|c cs Hc _ IH]; [reflexivity|].
  cbn [existsb]. now rewrite Hc, IH.
Qed.

End Setup.

(** C4 (counterexample): the host has no device for the configured
    ethernet interface.  [addWiredConnection({nat: true})] registers the
    profile, fails to resolve the device and throws; the profile stays
    registered and neither [Delete] nor [DeactivateConnection] was ever
    requested. *)
Lemma failed_setup_leaks_the_registered_profile :
  let run := NetworkManager.addWiredConnection (NetworkManager.mkWired (Some true))
                                               Scenario.no_eth0 in
  fst run = Thrown (DBusError (js "org.freedesktop.NetworkManager.UnknownDevice"))
  /\ Service.registered_profiles (remote (NetworkManager.bus (snd run))) = [Scenario.profile0]
  /\ existsb Vocabulary.is_cleanup (calls (NetworkManager.bus (snd run))) = false
  /\ NetworkManager.wired (snd run) = Teardown.new NetworkManager.noop.
Proof. vm_compute. repeat split. Qed.

(** C4 (amended): when the Mode is configured, its Teardown Action has
    returned and one of the three set-up steps (registration, device
    resolution, activation) throws, the call throws that same error, the
    Mode's registry holds the no-op, everything else of the manager is as
    before, and the bus handle is as the failing step left it: after the
    initial teardown no [Delete] or [DeactivateConnection] is requested, so
    no clean-up of an already registered profile is attempted. *)
Theorem failed_setup_leaves_mode_idle_without_cleanup
        {B : Type} `{Host B} (w : NetworkManager.world B) (r : Vocabulary.invocation)
        (iface : jsstring) (d : value) (b1 b2 : Bus.bus B) (e : error) :
  Vocabulary.static_configuration (Vocabulary.mode_of r) w = Some iface ->
  NetworkManager.call (Teardown.fn (Vocabulary.registry (Vocabulary.mode_of r) w))
                      (NetworkManager.bus w)
  = (Returned tt, b1) ->
  Vocabulary.descriptor r (fst (host_random (remote b1))) = Some d ->
  Vocabulary.establish d iface (mkBus (snd (host_random (remote b1))) (calls b1))
  = (Thrown e, b2) ->
  Vocabulary.perform r w
  = (Thrown e,
     Vocabulary.with_registry (Vocabulary.mode_of r) (Teardown.new NetworkManager.noop)
                              (Vocabulary.with_bus b2 w))
  /\ exists cs, Vocabulary.requested b1 b2 cs
                /\ existsb Vocabulary.is_cleanup cs = false.
Proof.
  intros Hs Hrun Hd He. split.
  - unfold Vocabulary.static_configuration in Hs.
    destruct (NetworkManager.options w) as [opts|] eqn:Eo; [|discriminate].
    destruct r as [[[nat|]]|[[ssid|] [psk|] [nat|]]];
      cbn [Vocabulary.descriptor NetworkManager.wired_nat NetworkManager.wl_ssid
           NetworkManager.wl_psk NetworkManager.wl_nat] in Hd;
      try discriminate; inversion Hd; subst d; clear Hd;
      cbn [Vocabulary.mode_of Vocabulary.registry] in *.
    + cbn [Vocabulary.perform].
      rewrite (addWiredConnection_valid w opts iface nat Eo Hs).
      rewrite (run_returned _ _ _ _ Hrun). cbv zeta. rewrite He.
      unfold Vocabulary.with_registry, Vocabulary.with_bus.
      cbn [NetworkManager.options NetworkManager.bus NetworkManager.wired
           NetworkManager.wireless NetworkManager.listeners NetworkManager.console].
      now rewrite Eo.
    + cbn [Vocabulary.perform].
      rewrite (addWirelessConnection_valid w opts iface ssid psk nat Eo Hs).
      rewrite (run_returned _ _ _ _ Hrun). cbv zeta. rewrite He.
      unfold Vocabulary.with_registry, Vocabulary.with_bus.
      cbn [NetworkManager.options NetworkManager.bus NetworkManager.wired
           NetworkManager.wireless NetworkManager.listeners NetworkManager.console].
      now rewrite Eo.
  - destruct (establish_no_cleanup _ _ _ _ _ He) as [cs [R F]].
    exists cs. split; [exact R | exact F].
Qed.

(** C4 (witness): the run of the counterexample, where device resolution
    fails after the profile was registered. *)
Lemma failed_setup_leaves_mode_idle_without_cleanup_witness :
  let w := Scenario.no_eth0 in
  let r := Vocabulary.AddWired (NetworkManager.mkWired (Some true)) in
  let d := Descriptor.wiredTemplate (js "0.4fzyo82mvyr") (js "shared") in
  let b2 := snd (Vocabulary.establish d Service.eth0 (NetworkManager.bus w)) in
  Vocabulary.perform r w
  = (Thrown (DBusError (js "org.freedesktop.NetworkManager.UnknownDevice")),
     Vocabulary.with_registry Vocabulary.Wired (Teardown.new NetworkManager.noop)
                              (Vocabulary.with_bus b2 w))
  /\ exists cs, Vocabulary.requested (NetworkManager.bus w) b2 cs
                /\ existsb Vocabulary.is_cleanup cs = false.
Proof.
  intros w r d b2.
  apply (failed_setup_leaves_mode_idle_without_cleanup
           w r Service.eth0 d (NetworkManager.bus w) b2).
  - reflexivity.
  - reflexivity.
  - reflexivity.
  - vm_compute. reflexivity.
Defined.


(** ** Sequences of wired set-ups, against the service *)

Section OnService.
Import NetworkManager Vocabulary Service.

Lemma js_inj (a b : string) : js a = js b -> a = b.
Proof.
  unfold js. intros E.
  rewrite <- (string_of_list_ascii_of_string a), <- (string_of_list_ascii_of_string b).
  f_equal. revert E. generalize (list_ascii_of_string a) (list_ascii_of_string b).
  intros l. induction l as [|x l IH]; intros l0; destruct l0 as [|y l0];
    simpl; intros E; try discriminate.
  - reflexivity.
  - inversion E as [[Hxy Hl]]. f_equal.
    + apply N2Z.inj in Hxy.
      rewrite <- (ascii_N_embedding x), <- (ascii_N_embedding y). now rewrite Hxy.
    + now apply IH.
Qed.

Lemma decimal_inj (m n : nat) : decimal m = decimal n -> m = n.
Proof.
  unfold decimal. intros E. apply js_inj in E.
  assert (E' : NilEmpty.uint_of_string (NilEmpty.string_of_uint (Nat.to_uint m))
               = NilEmpty.uint_of_string (NilEmpty.string_of_uint (Nat.to_uint n)))
    by now rewrite E.
  rewrite !NilEmpty.usu in E'. inversion E' as [E''].
  rewrite <- (DecimalNat.Unsigned.of_to m), <- (DecimalNat.Unsigned.of_to n).
  now rewrite E''.
Qed.

Lemma child_inj (p : jsstring) (m n : nat) : child p m = child p n -> m = n.
Proof.
  unfold child. intros E. apply app_inv_head in E. apply app_inv_head in E.
  now apply decimal_inj.
Qed.

Lemma without_not_In (x : jsstring) (xs : list jsstring) :
  ~ In x xs -> without x xs = xs.
Proof.
  induction xs as [|y xs IH]; [reflexivity|]. intros Hn. simpl.
  destruct (streq x y) eqn:E.
  - apply streq_true in E. subst. exfalso. apply Hn. now left.
  - simpl. f_equal. apply IH. intros Hin. apply Hn. now right.
Qed.

Lemma without_last (x : jsstring) (xs : list jsstring) :
  ~ In x xs -> without x (xs ++ [x]) = xs.
Proof.
  intros Hn. unfold without. rewrite filter_app. fold (without x xs).
  rewrite (without_not_In _ _ Hn). simpl. rewrite streq_refl. simpl.
  apply app_nil_r.
Qed.

Lemma In_without (x y : jsstring) (xs : list jsstring) :
  In y (without x xs) <-> In y xs /\ y <> x.
Proof.
  unfold without. rewrite filter_In. rewrite negb_true_iff, streq_false.
  split; intros [A C]; split; auto.
Qed.

Lemma set_profiles_id (n : nm) : set_profiles (profiles n) (next_profile n) n = n.
Proof. now destruct n. Qed.

Lemma set_actives_id (n : nm) : set_actives (actives n) (next_active n) n = n.
Proof. now destruct n. Qed.

Lemma serve_inv {A} (f : nm -> outcome A * nm) (s s' : service) (o : outcome A) :
  serve f s = (o, s') ->
  (o = Thrown no_reply /\ state s' = state s) \/ (o, state s') = f (state s).
Proof.
  unfold serve. destruct (faults s) as [|[|] rest]; destruct (f (state s)) as [o1 n1];
    intros E; inversion E; subst; auto.
Qed.

Lemma request_service {A} (c : bus_call) (f : nm -> outcome A * nm)
      (b b' : Bus.bus service) (o : outcome A) :
  request c (serve f) b = (o, b') ->
  (o = Thrown no_reply /\ behind b' = behind b) \/ (o, behind b') = f (behind b).
Proof.
  unfold request, behind. destruct (serve f (remote b)) as [o1 s1] eqn:E.
  intros E'. inversion E'; subst. now apply serve_inv.
Qed.

Lemma getProxyObject_service (name p : jsstring) (b b' : Bus.bus service)
      (o : outcome ProxyObject) :
  getProxyObject name p b = (o, b') ->
  behind b' = behind b
  /\ (o = Thrown no_reply
      \/ o = Returned (mkProxy p (fst (introspect p (behind b)))
                               (snd (introspect p (behind b))))).
Proof.
  unfold getProxyObject, bind.
  destruct (request (GetProxyObject name p) (host_getProxyObject name p) b)
    as [o1 b1] eqn:E.
  apply request_service in E. destruct E as [[-> S1]|E].
  - intros E'. inversion E'; subst. auto.
  - inversion E; subst. intros E'. inversion E'; subst. split; [congruence|].
    right. reflexivity.
Qed.

Lemma getInterface_cases (o : ProxyObject) (name : jsstring) (b : Bus.bus service) :
  getInterface o name b = (Returned (mkInterface (path o) name), b)
  \/ exists e, getInterface o name b = (Thrown e, b).
Proof.
  unfold getInterface. destruct (includes (interfaces o) name); [now left|].
  right. eexists. reflexivity.
Qed.

(** A method of an object, reached through its proxy: either some step
    throws and the service is as before, or the method was served. *)
Lemma via_proxy_service {A} (p iface member : jsstring) (args : list value)
      (f : ClientInterface -> nm -> outcome A * nm)
      (b b' : Bus.bus service) (o : outcome A) :
  (x <- getProxyObject NM p ;;
   con <- getInterface x iface ;;
   method con member args (serve (f con))) b = (o, b') ->
  ((exists e, o = Thrown e) /\ behind b' = behind b)
  \/ (o, behind b') = f (mkInterface p iface) (behind b).
Proof.
  unfold bind at 1.
  destruct (getProxyObject NM p b) as [o1 b1] eqn:E1.
  apply getProxyObject_service in E1. destruct E1 as [S1 [-> | ->]].
  - intros E. inversion E; subst. left. split; [now eexists | exact S1].
  - unfold bind.
    destruct (getInterface_cases
                (mkProxy p (fst (introspect p (behind b))) (snd (introspect p (behind b))))
                iface b1) as [G|[e G]]; rewrite G.
    + cbn [path]. unfold method. intros E. apply request_service in E.
      destruct E as [[-> S2]|E].
      * left. split; [now eexists | congruence].
      * right. now rewrite <- S1.
    + intros E. inversion E; subst. left. split; [now eexists | exact S1].
Qed.

Lemma addConnection_service (d : value) (b b' : Bus.bus service) (o : outcome jsstring) :
  addConnection d b = (o, b') ->
  ((exists e, o = Thrown e) /\ behind b' = behind b)
  \/ (o, behind b') = add_profile (behind b).
Proof.
  intros E.
  exact (via_proxy_service Settings_path Settings_iface (js "AddConnectionUnsaved") [d]
                           (fun _ => add_profile) b b' o E).
Qed.

Lemma getDevice_service (iface : jsstring) (b b' : Bus.bus service) (o : outcome jsstring) :
  getDevice iface b = (o, b') ->
  behind b' = behind b /\ ((exists e, o = Thrown e) \/ exists d, o = Returned d).
Proof.
  intros E.
  destruct (via_proxy_service NM_path NM (js "GetDeviceByIpIface") [VStr iface]
                              (fun _ => device_of iface) b b' o E) as [[He S1]|E'].
  - auto.
  - unfold device_of in E'. destruct (lookup iface (devices (behind b))) as [dv|];
      inversion E'; subst; split; eauto.
Qed.

Lemma activateConnection_service (reference device : jsstring)
      (b b' : Bus.bus service) (o : outcome jsstring) :
  activateConnection reference device b = (o, b') ->
  ((exists e, o = Thrown e) /\ behind b' = behind b)
  \/ (o = Returned (active_path (next_active (behind b)))
      /\ behind b' = set_actives (actives (behind b) ++ [active_path (next_active (behind b))])
                                 (S (next_active (behind b))) (behind b)).
Proof.
  intros E.
  destruct (via_proxy_service NM_path NM (js "ActivateConnection")
                              [VStr reference; VStr device; VStr (js "/")]
                              (fun _ => activate reference) b b' o E) as [L|E'].
  - now left.
  - unfold activate in E'. destruct (includes (profiles (behind b)) reference).
    + inversion E'; subst. right. split; reflexivity.
    + inversion E'; subst. left. split; [now eexists | reflexivity].
Qed.

Lemma deactivateConnection_service (reference : jsstring)
      (b b' : Bus.bus service) (o : outcome unit) :
  deactivateConnection reference b = (o, b') ->
  ((exists e, o = Thrown e) /\ behind b' = behind b)
  \/ (o = Returned tt
      /\ behind b' = set_actives (without reference (actives (behind b)))
                                 (next_active (behind b)) (behind b)).
Proof.
  unfold deactivateConnection. unfold bind at 1.
  destruct (getProxyObject NM ActiveConnection_path b) as [o1 b1] eqn:E1.
  apply getProxyObject_service in E1. destruct E1 as [S1 [-> | ->]].
  - intros E. inversion E; subst. left. split; [now eexists | exact S1].
  - cbn [nodes]. change (fst (introspect ActiveConnection_path (behind b)))
      with (actives (behind b)).
    destruct (includes (actives (behind b)) reference) eqn:Einc.
    + intros E.
      destruct (via_proxy_service NM_path NM (js "DeactivateConnection") [VStr reference]
                                  (fun _ => deactivate reference) b1 b' o E) as [[He S2]|E'].
      * left. split; [exact He | congruence].
      * unfold deactivate in E'. rewrite S1, Einc in E'.
        inversion E'; subst. right. split; reflexivity.
    + intros E. inversion E; subst. right. split; [reflexivity|].
      rewrite S1. apply includes_not_In in Einc.
      rewrite (without_not_In _ _ Einc). symmetry. apply set_actives_id.
Qed.

Lemma removeConnection_service (reference : jsstring)
      (b b' : Bus.bus service) (o : outcome unit) :
  removeConnection reference b = (o, b') ->
  ((exists e, o = Thrown e) /\ behind b' = behind b)
  \/ (o = Returned tt
      /\ behind b' = set_profiles (without reference (profiles (behind b)))
                                  (next_profile (behind b)) (behind b)).
Proof.
  unfold removeConnection. unfold bind at 1.
  destruct (getProxyObject NM Settings_path b) as [o1 b1] eqn:E1.
  apply getProxyObject_service in E1. destruct E1 as [S1 [-> | ->]].
  - intros E. inversion E; subst. left. split; [now eexists | exact S1].
  - cbn [nodes]. change (fst (introspect Settings_path (behind b)))
      with (profiles (behind b)).
    destruct (includes (profiles (behind b)) reference) eqn:Einc.
    + intros E.
      destruct (via_proxy_service reference Connection_iface (js "Delete") []
                                  (fun con => delete_profile (object_path con))
                                  b1 b' o E) as [[He S2]|E'].
      * left. split; [exact He | congruence].
      * cbn [object_path] in E'. unfold delete_profile in E'. rewrite S1, Einc in E'.
        inversion E'; subst. right. split; reflexivity.
    + intros E. inversion E; subst. right. split; [reflexivity|].
      rewrite S1. apply includes_not_In in Einc.
      rewrite (without_not_In _ _ Einc). symmetry. apply set_profiles_id.
Qed.

Lemma call_reversal_service (a c : jsstring) (b b' : Bus.bus service) (o : outcome unit) :
  call (reversal a c) b = (o, b') ->
  devices (behind b') = devices (behind b)
  /\ next_active (behind b') = next_active (behind b)
  /\ next_profile (behind b') = next_profile (behind b)
  /\ ((o = Returned tt
       /\ actives (behind b') = without a (actives (behind b))
       /\ profiles (behind b') = without c (profiles (behind b)))
      \/ ((exists e, o = Thrown e)
          /\ (actives (behind b') = actives (behind b)
              \/ actives (behind b') = without a (actives (behind b)))
          /\ profiles (behind b') = profiles (behind b))).
Proof.
  cbn [call]. unfold bind.
  destruct (deactivateConnection a b) as [o1 b1] eqn:E1.
  apply deactivateConnection_service in E1.
  destruct E1 as [[[e ->] S1]|[-> S1]].
  - intros E. inversion E; subst. rewrite S1. repeat split.
    right. split; [now eexists | auto].
  - intros E. apply removeConnection_service in E.
    destruct E as [[[e ->] S2]|[-> S2]]; rewrite S2, S1; repeat split.
    + right. split; [now eexists | auto].
    + left. auto.
Qed.

Lemma establish_service (d : value) (iface : jsstring) (b b' : Bus.bus service)
      (o : outcome (jsstring * jsstring)) :
  establish d iface b = (o, b') ->
  let n := behind b in
  let n' := behind b' in
  ((exists e, o = Thrown e)
   /\ actives n' = actives n /\ next_active n' = next_active n
   /\ ((profiles n' = profiles n /\ next_profile n' = next_profile n)
       \/ (profiles n' = profiles n ++ [profile_path (next_profile n)]
           /\ next_profile n' = S (next_profile n))))
  \/ (o = Returned (active_path (next_active n), profile_path (next_profile n))
      /\ actives n' = actives n ++ [active_path (next_active n)]
      /\ next_active n' = S (next_active n)
      /\ profiles n' = profiles n ++ [profile_path (next_profile n)]
      /\ next_profile n' = S (next_profile n)).
Proof.
  unfold establish. unfold bind at 1.
  destruct (addConnection d b) as [o1 b1] eqn:E1.
  apply addConnection_service in E1.
  destruct E1 as [[[e ->] S1]|E1].
  { intros E. inversion E; subst. cbv zeta. rewrite S1. left.
    split; [now eexists | auto]. }
  unfold add_profile in E1. inversion E1 as [[Ho1 S1]]. subst o1. clear E1.
  unfold bind at 1.
  destruct (getDevice iface b1) as [o2 b2] eqn:E2.
  apply getDevice_service in E2. destruct E2 as [S2 [[e ->]|[dv ->]]].
  { intros E. inversion E; subst. cbv zeta. rewrite S2, S1. left.
    split; [now eexists | cbn; auto]. }
  unfold bind.
  destruct (activateConnection (profile_path (next_profile (behind b))) dv b2)
    as [o3 b3] eqn:E3.
  apply activateConnection_service in E3.
  destruct E3 as [[[e ->] S3]|[-> S3]].
  { intros E. inversion E; subst. cbv zeta. rewrite S3, S2, S1. left.
    split; [now eexists | cbn; auto]. }
  intros E. inversion E; subst. cbv zeta. rewrite S3, S2, S1. right.
  cbn. auto.
Qed.

Lemma fresh_names_step (n n' : nm) :
  fresh_names n ->
  (incl (actives n') (actives n) /\ next_active n' = next_active n
   \/ actives n' = actives n ++ [active_path (next_active n)]
      /\ next_active n' = S (next_active n)) ->
  (incl (profiles n') (profiles n) /\ next_profile n' = next_profile n
   \/ profiles n' = profiles n ++ [profile_path (next_profile n)]
      /\ next_profile n' = S (next_profile n)) ->
  fresh_names n'.
Proof.
  intros [Fa Fp] Ha Hp. split.
  - intros k Hk Hin. destruct Ha as [[Hi Hn]|[Hi Hn]]; rewrite Hn in Hk.
    + exact (Fa k Hk (Hi _ Hin)).
    + rewrite Hi in Hin. apply in_app_or in Hin. destruct Hin as [Hin|[Heq|[]]].
      * apply (Fa k); [lia | exact Hin].
      * apply child_inj in Heq. lia.
  - intros k Hk Hin. destruct Hp as [[Hi Hn]|[Hi Hn]]; rewrite Hn in Hk.
    + exact (Fp k Hk (Hi _ Hin)).
    + rewrite Hi in Hin. apply in_app_or in Hin. destruct Hin as [Hin|[Heq|[]]].
      * apply (Fp k); [lia | exact Hin].
      * apply child_inj in Heq. lia.
Qed.

Lemma incl_without (x : jsstring) (xs : list jsstring) : incl (without x xs) xs.
Proof. intros y Hy. now apply In_without in Hy. Qed.



Lemma filter_nothing {A} (f : A -> bool) (xs : list A) :
  (forall x, In x xs -> f x = false) -> filter f xs = [].
Proof.
  induction xs as [|x xs IH]; [reflexivity|]. intros Hf. simpl.
  rewrite (Hf x (or_introl eq_refl)). apply IH. intros y Hy. apply Hf. now right.
Qed.

Lemma own_base (base : list jsstring) (b : Bus.bus service) :
  actives (behind b) = base -> own base b = [].
Proof.
  unfold own. intros ->. apply filter_nothing. intros x Hx.
  apply negb_false_iff. now apply includes_In.
Qed.

Lemma own_one (base : list jsstring) (a : jsstring) (b : Bus.bus service) :
  actives (behind b) = base ++ [a] -> ~ In a base -> own base b = [a].
Proof.
  unfold own. intros -> Hn. rewrite filter_app.
  rewrite filter_nothing
    by (intros x Hx; apply negb_false_iff; now apply includes_In).
  simpl. now replace (includes base a) with false
    by (symmetry; now apply includes_not_In).
Qed.

Lemma establish_after_teardown (base : list jsstring) (d : value) (iface : jsstring)
      (b1 b2 : Bus.bus service) (o : outcome (jsstring * jsstring)) :
  fresh_names (behind b1) ->
  actives (behind b1) = base ->
  establish d iface b1 = (o, b2) ->
  fresh_names (behind b2)
  /\ (((exists e, o = Thrown e) /\ actives (behind b2) = base)
      \/ (o = Returned (active_path (next_active (behind b1)),
                        profile_path (next_profile (behind b1)))
          /\ next_active (behind b2) = S (next_active (behind b1))
          /\ next_profile (behind b2) = S (next_profile (behind b1))
          /\ ~ In (active_path (next_active (behind b1))) base
          /\ actives (behind b2) = base ++ [active_path (next_active (behind b1))]
          /\ profiles (behind b2)
             = profiles (behind b1) ++ [profile_path (next_profile (behind b1))])).
Proof.
  intros F Ha E. apply establish_service in E. cbv zeta in E.
  destruct E as [([e ->] & Eacts & Ena & Hp)|(-> & Eacts & Ena & Eprofs & Enp)].
  - split.
    + apply (fresh_names_step _ _ F).
      * left. split; [rewrite Eacts; apply incl_refl | exact Ena].
      * destruct Hp as [[Ep En]|[Ep En]]; [left | right; auto].
        split; [rewrite Ep; apply incl_refl | exact En].
    + left. split; [now eexists | congruence].
  - split.
    + apply (fresh_names_step _ _ F); right; auto.
    + right. rewrite <- Ha. repeat split; auto.
      destruct F as [Fa _]. apply Fa. lia.
Qed.

Lemma addWiredConnection_tracked (base : list jsstring) (args : WiredArgs)
      (w w' : world service) (o : outcome jsstring) :
  tracked base w ->
  addWiredConnection args w = (o, w') ->
  tracked base w' /\ (forall iface, o = Returned iface -> renewed base w w').
Proof.
  intros T E.
  assert (Hinvalid : forall e, (Thrown e, w) = (o, w') ->
                               tracked base w'
                               /\ (forall iface, o = Returned iface -> renewed base w w')).
  { intros e E'. inversion E'; subst. split; [exact T | discriminate]. }
  destruct args as [[nat|]]; destruct (options w) as [[[iface|] owl]|] eqn:Eo;
    try (unfold addWiredConnection in E; rewrite Eo in E; now apply (Hinvalid _ E)).
  clear Hinvalid.
  rewrite (addWiredConnection_valid w _ iface nat Eo eq_refl) in E.
  destruct (Teardown.run call noop (wired w) (bus w)) as [[o1 b1] t1] eqn:Er.
  apply run_inv in Er. destruct Er as [Ec Et].
  destruct T as [F T].
  (* the state after the Mode's registry has been run *)
  assert (Mid :
            devices (behind b1) = devices (behind (bus w))
            /\ next_active (behind b1) = next_active (behind (bus w))
            /\ next_profile (behind b1) = next_profile (behind (bus w))
            /\ fresh_names (behind b1)
            /\ ((o1 = Returned tt /\ actives (behind b1) = base
                 /\ forall a0 c0, wired w = Teardown.mk (reversal a0 c0) ->
                                   ~ In a0 base /\ ~ In c0 (profiles (behind b1))
                                   /\ exists k j, a0 = active_path k /\ c0 = profile_path j
                                                  /\ (k < next_active (behind b1))%nat
                                                  /\ (j < next_profile (behind b1))%nat)
                \/ ((exists e, o1 = Thrown e) /\ tracked base
                       (mkWorld (options w) b1 (wired w) (wireless w)
                                (listeners w) (console w))))).
  { destruct T as [[Hw Ha]|(k & j & Hw & Hk & Hj & Hnb & Ha)].
    - rewrite Hw in Ec. cbn in Ec. inversion Ec; subst o1 b1.
      split; [reflexivity|]. split; [reflexivity|]. split; [reflexivity|].
      split; [exact F|]. left. split; [reflexivity|]. split; [exact Ha|].
      intros a0 c0 Hw'. rewrite Hw in Hw'. discriminate Hw'.
    - rewrite Hw in Ec. cbn [Teardown.fn] in Ec.
      apply call_reversal_service in Ec.
      destruct Ec as (Hd & Hna & Hnp & Hcases).
      assert (F1 : fresh_names (behind b1)).
      { apply (fresh_names_step _ _ F); left; split; auto.
        - destruct Hcases as [(_ & -> & _)|(_ & [-> | ->] & _)];
            try apply incl_without; apply incl_refl.
        - destruct Hcases as [(_ & _ & ->)|(_ & _ & ->)];
            try apply incl_without; apply incl_refl. }
      split; [exact Hd|]. split; [exact Hna|]. split; [exact Hnp|].
      split; [exact F1|].
      destruct Hcases as [(-> & Hacts & Hprofs)|([e ->] & Hacts & Hprofs)].
      + left. split; [reflexivity|]. split.
        * rewrite Hacts. destruct Ha as [-> | ->];
            [now apply without_last | now apply without_not_In].
        * intros a0 c0 Hw'. rewrite Hw in Hw'. inversion Hw'; subst a0 c0.
          split; [exact Hnb|]. split.
          -- rewrite Hprofs. intros Hin. apply In_without in Hin. now destruct Hin.
          -- exists k, j. rewrite Hna, Hnp. auto.
      + right. split; [now eexists|]. split; [exact F1|].
        right. exists k, j. cbn [wired bus]. rewrite Hna, Hnp.
        split; [exact Hw|]. split; [exact Hk|]. split; [exact Hj|].
        split; [exact Hnb|].
        destruct Hacts as [-> | ->]; [exact Ha|].
        right. destruct Ha as [-> | ->];
          [now apply without_last | now apply without_not_In]. }
  destruct Mid as (Hd & Hna & Hnp & F1 & [(-> & Ha1 & Hprev)|([e ->] & T1)]).
  2:{ cbn [returned] in Et. subst t1. injection E as <- <-.
      split; [exact T1 | discriminate]. }
  cbn [returned] in Et. subst t1. cbv zeta in E.
  destruct (establish _ iface _) as [o2 b2] eqn:Ee.
  apply (establish_after_teardown base) in Ee; [|exact F1|exact Ha1].
  destruct Ee as [F2 [([e ->] & Ha2)|(-> & Hna2 & Hnp2 & Hfresh & Ha2 & Hp2)]].
  - injection E as <- <-. split; [|discriminate].
    split; [exact F2|]. left. split; [reflexivity | exact Ha2].
  - injection E as <- <-. cbn [fst snd]. split.
    + split; [exact F2|]. right.
      exists (next_active (behind b1)), (next_profile (behind b1)).
      cbn [wired bus]. change (behind (mkBus (snd (host_random (remote b1))) (calls b1)))
        with (behind b1) in *.
      rewrite Hna2, Hnp2. repeat split; auto.
    + intros iface' _.
      change (behind (mkBus (snd (host_random (remote b1))) (calls b1)))
        with (behind b1) in *.
      exists (active_path (next_active (behind b1))),
        (profile_path (next_profile (behind b1))), b1.
      cbn [wired bus]. split; [exact Ec|]. split; [now apply own_base|].
      split; [reflexivity|]. split; [now apply own_one|]. split.
      * rewrite Hp2. apply in_or_app. right. now left.
      * intros a0 c0 Hw'. destruct (Hprev a0 c0 Hw') as (Hb & Hc & k & j & -> & -> & Hk & Hj).
        rewrite Ha1, Ha2, Hp2. repeat split; auto.
        -- intros Hin. apply in_app_or in Hin. destruct Hin as [Hin|[Heq|[]]]; [auto|].
           apply child_inj in Heq. lia.
        -- intros Hin. apply in_app_or in Hin. destruct Hin as [Hin|[Heq|[]]]; [auto|].
           apply child_inj in Heq. lia.
Qed.

Lemma history_tracked (base : list jsstring) (argss : list WiredArgs) :
  forall w, tracked base w ->
            forall before iface after,
              In (before, Returned iface, after) (history argss w) ->
              renewed base before after.
Proof.
  induction argss as [|args argss IH]; intros w T before iface after Hin.
  - contradiction.
  - cbn [history] in Hin.
    destruct (addWiredConnection args w) as [o w'] eqn:E.
    destruct (addWiredConnection_tracked base args w w' o T E) as [T' Hpost].
    destruct o as [i|e|x].
    + destruct Hin as [Heq|Hin].
      * inversion Heq; subst. now apply (Hpost iface).
      * exact (IH w' T' _ _ _ Hin).
    + destruct Hin as [Heq|Hin]; [discriminate Heq|].
      exact (IH w' T' _ _ _ Hin).
    + destruct Hin as [Heq|[]]. discriminate Heq.
Qed.

End OnService.

(** C8: take a manager constructed with the default registries on a
    service whose active connections are [base], and any sequence of
    [addWiredConnection] calls, whatever requests of theirs the service
    fails.  After each call that returns, the manager has exactly one active
    connection [a] of its own, and the wired registry holds the reversal of
    [a] and of its profile [c].  The registry held before that call was run
    first and returned, which left no connection of the manager's own; the
    connection and the profile it named are neither active nor registered
    by the time the new ones are created, nor afterwards. *)
Theorem one_wired_connection_after_each_successful_call
        (opts : option NetworkManager.NetworkOptions)
        (s0 : Service.service) (cs0 : list bus_call)
        (argss : list NetworkManager.WiredArgs)
        (before after : NetworkManager.world Service.service) (iface : jsstring) :
  Service.fresh_names (Service.state s0) ->
  In (before, Returned iface, after)
     (Service.history argss
        (NetworkManager.constructor opts (mkBus s0 cs0) NetworkManager.default_teardowns)) ->
  let base := Service.active_connections s0 in
  exists a c b1,
    NetworkManager.call (Teardown.fn (NetworkManager.wired before))
                        (NetworkManager.bus before)
    = (Returned tt, b1)
    /\ Service.own base b1 = []
    /\ NetworkManager.wired after = Teardown.mk (NetworkManager.reversal a c)
    /\ Service.own base (NetworkManager.bus after) = [a]
    /\ In c (Service.profiles (Service.behind (NetworkManager.bus after)))
    /\ forall a0 c0,
        NetworkManager.wired before = Teardown.mk (NetworkManager.reversal a0 c0) ->
        ~ In a0 (Service.actives (Service.behind b1))
        /\ ~ In c0 (Service.profiles (Service.behind b1))
        /\ ~ In a0 (Service.actives (Service.behind (NetworkManager.bus after)))
        /\ ~ In c0 (Service.profiles (Service.behind (NetworkManager.bus after))).
Proof.
  intros F Hin base.
  apply (history_tracked base argss
                         (NetworkManager.constructor opts (mkBus s0 cs0)
                                                     NetworkManager.default_teardowns))
    with (iface := iface); [|exact Hin].
  split; [exact F|]. left. split; reflexivity.
Qed.

(** C8 (witness): two wired set-ups in a row on the idle host, read at the
    second call, which replaces the connection of the first. *)
Lemma one_wired_connection_after_each_successful_call_witness :
  let before := Scenario.wired_up in
  let after := snd (NetworkManager.addWiredConnection
                      (NetworkManager.mkWired (Some false)) before) in
  exists a c b1,
    NetworkManager.call (Teardown.fn (NetworkManager.wired before))
                        (NetworkManager.bus before)
    = (Returned tt, b1)
    /\ Service.own [] b1 = []
    /\ NetworkManager.wired after = Teardown.mk (NetworkManager.reversal a c)
    /\ Service.own [] (NetworkManager.bus after) = [a]
    /\ In c (Service.profiles (Service.behind (NetworkManager.bus after)))
    /\ forall a0 c0,
        NetworkManager.wired before = Teardown.mk (NetworkManager.reversal a0 c0) ->
        ~ In a0 (Service.actives (Service.behind b1))
        /\ ~ In c0 (Service.profiles (Service.behind b1))
        /\ ~ In a0 (Service.actives (Service.behind (NetworkManager.bus after)))
        /\ ~ In c0 (Service.profiles (Service.behind (NetworkManager.bus after))).
Proof.
  intros before after.
  apply (one_wired_connection_after_each_successful_call
           Service.both_modes (Service.idle_host []) []
           [NetworkManager.mkWired (Some true); NetworkManager.mkWired (Some false)]
           before after Service.eth0).
  - split; intros k _ [].
  - vm_compute. right. left. reflexivity.
Defined.

(** ** Further properties of the manager *)

(** X1: the identifier is the window of at most eight code units that
    starts at index 2 of the rendered random number: it has
    [min 8 (length - 2)] code units, so a rendering shorter than ten code
    units gives a shorter identifier and one shorter than three gives the
    empty string. *)
Theorem generateId_is_a_window_of_at_most_eight (r : jsstring) :
  List.length (Descriptor.generateId r) = Nat.min 8 (List.length r - 2)
  /\ exists pre post,
      r = pre ++ Descriptor.generateId r ++ post
      /\ List.length pre = Nat.min 2 (List.length r).
Proof.
  unfold Descriptor.generateId, substring. split.
  - rewrite length_firstn, length_skipn. reflexivity.
  - exists (firstn 2 r), (skipn 8 (skipn 2 r)). split.
    + change (10 - 2)%nat with 8%nat.
      rewrite (firstn_skipn 8 (skipn 2 r)). symmetry. apply firstn_skipn.
    + apply length_firstn.
Qed.

(** X2: [stringToArrayOfBytes] yields one number per code unit, the
    [i]-th being the code unit at index [i]; different strings give
    different arrays; and every element fits an octet exactly when every
    code unit of the string is below 256. *)
Theorem stringToArrayOfBytes_code_units (str : jsstring) :
  List.length (Descriptor.stringToArrayOfBytes str) = List.length str
  /\ (forall i, nth_error (Descriptor.stringToArrayOfBytes str) i
               = option_map VNum (nth_error str i))
  /\ (forall str', Descriptor.stringToArrayOfBytes str = Descriptor.stringToArrayOfBytes str'
                   -> str = str')
  /\ (forallb is_byte (Descriptor.stringToArrayOfBytes str) = true
      <-> Forall (fun c => 0 <= c < 256) str).
Proof.
  rewrite stringToArrayOfBytes_map. split; [apply length_map|].
  split; [intros i; apply nth_error_map|]. split.
  - intros str'. rewrite stringToArrayOfBytes_map. revert str'.
    induction str as [|c str IH]; intros [|c' str'] E; try discriminate; [reflexivity|].
    simpl in E. inversion E. f_equal. now apply IH.
  - rewrite forallb_forall, Forall_forall. split.
    + intros Hb c Hc. specialize (Hb (VNum c) (in_map VNum _ _ Hc)).
      simpl in Hb. apply andb_true_iff in Hb. destruct Hb as [H0 H1].
      apply Z.leb_le in H0. apply Z.ltb_lt in H1. lia.
    + intros Hs v Hv. apply in_map_iff in Hv. destruct Hv as [c [<- Hc]].
      specialize (Hs c Hc). simpl. apply andb_true_iff.
      split; [apply Z.leb_le | apply Z.ltb_lt]; lia.
Qed.

Section General.
Import NetworkManager Vocabulary Protocol.
Context {B : Type} `{Host B}.

Lemma via_proxy_requests {A} (p iface member : jsstring) (args : list value)
      (f : ClientInterface -> B -> outcome A * B)
      (b b' : Bus.bus B) (o : outcome A) :
  (x <- getProxyObject NM p ;;
   con <- getInterface x iface ;;
   method con member args (f con)) b = (o, b') ->
  (calls b' = calls b ++ [GetProxyObject NM p] /\ returned o = false)
  \/ (calls b' = calls b ++ lookup_then_call p iface member args
      /\ exists ns ifs r,
          host_getProxyObject NM p (remote b) = (Returned (ns, ifs), r)
          /\ In iface ifs
          /\ (o, remote b') = f (mkInterface p iface) r).
Proof.
  unfold bind at 1. unfold getProxyObject at 1. unfold bind at 1. unfold request at 1.
  destruct (host_getProxyObject NM p (remote b)) as [[[ns ifs]|e|x] r] eqn:Eh;
    cbn [ret]; try (intros E; inversion E; subst; left; split; reflexivity).
  unfold bind, getInterface. cbn [interfaces path fst snd].
  destruct (includes ifs iface) eqn:Ei.
  - cbn [ret]. unfold method, request. cbn [remote calls object_path interface_name].
    destruct (f (mkInterface p iface) r) as [o1 r1] eqn:Ef.
    intros E. inversion E; subst. right. split.
    + cbn [calls]. unfold lookup_then_call. now rewrite <- app_assoc.
    + exists ns, ifs, r. split; [reflexivity|]. split; [now apply includes_In|].
      cbn [remote]. now rewrite Ef.
  - cbn [throw]. intros E. inversion E; subst. left. split; reflexivity.
Qed.

Lemma establish_requests (d : value) (iface : jsstring) (b b' : Bus.bus B)
      (o : outcome (jsstring * jsstring)) :
  establish d iface b = (o, b') ->
  exists cs rest conn device,
    calls b' = calls b ++ cs
    /\ cs ++ rest = setup_requests d iface conn device
    /\ cs <> []
    /\ (forall p, o = Returned p -> rest = [] /\ snd p = conn).
Proof.
  unfold establish. unfold bind at 1.
  destruct (addConnection d b) as [o1 b1] eqn:E1.
  apply (via_proxy_requests Settings_path Settings_iface (js "AddConnectionUnsaved") [d]
                            (fun _ => host_AddConnectionUnsaved d)) in E1.
  destruct E1 as [[Hc Hr]|[Hc _]].
  { destruct o1 as [conn|e|x]; [discriminate Hr| |]; intros E; inversion E; subst;
      exists [GetProxyObject NM Settings_path];
      eexists; exists [], [];
        (split; [exact Hc|]); (split; [reflexivity|]);
        (split; [discriminate|]); intros p Hp; discriminate Hp. }
  destruct o1 as [conn|e|x].
  2,3: intros E; inversion E; subst;
    exists (lookup_then_call Settings_path Settings_iface (js "AddConnectionUnsaved") [d]);
    eexists; exists [], []; (split; [exact Hc|]); (split; [reflexivity|]);
    (split; [discriminate|]); intros p Hp; discriminate Hp.
  unfold bind at 1.
  destruct (getDevice iface b1) as [o2 b2] eqn:E2.
  apply (via_proxy_requests NM_path NM (js "GetDeviceByIpIface") [VStr iface]
                            (fun _ => host_GetDeviceByIpIface iface)) in E2.
  destruct E2 as [[Hc2 Hr2]|[Hc2 _]].
  { destruct o2 as [dv|e|x]; [discriminate Hr2| |]; intros E; inversion E; subst;
      exists (lookup_then_call Settings_path Settings_iface (js "AddConnectionUnsaved") [d]
              ++ [GetProxyObject NM NM_path]);
      eexists; exists conn, [];
        (split; [rewrite Hc2, Hc; now rewrite <- app_assoc|]);
        (split; [reflexivity|]);
        (split; [discriminate|]); intros p Hp; discriminate Hp. }
  destruct o2 as [dv|e|x].
  2,3: intros E; inversion E; subst;
    exists (lookup_then_call Settings_path Settings_iface (js "AddConnectionUnsaved") [d]
            ++ lookup_then_call NM_path NM (js "GetDeviceByIpIface") [VStr iface]);
    eexists; exists conn, [];
      (split; [rewrite Hc2, Hc; now rewrite <- app_assoc|]);
      (split; [reflexivity|]);
      (split; [discriminate|]); intros p Hp; discriminate Hp.
  unfold bind.
  destruct (activateConnection conn dv b2) as [o3 b3] eqn:E3.
  apply (via_proxy_requests NM_path NM (js "ActivateConnection")
                            [VStr conn; VStr dv; VStr (js "/")]
                            (fun _ => host_ActivateConnection conn dv (js "/"))) in E3.
  destruct E3 as [[Hc3 Hr3]|[Hc3 _]].
  { destruct o3 as [a|e|x]; [discriminate Hr3| |]; intros E; inversion E; subst;
      exists (lookup_then_call Settings_path Settings_iface (js "AddConnectionUnsaved") [d]
              ++ lookup_then_call NM_path NM (js "GetDeviceByIpIface") [VStr iface]
              ++ [GetProxyObject NM NM_path]);
      eexists; exists conn, dv;
        (split; [rewrite Hc3, Hc2, Hc; now rewrite <- !app_assoc|]);
        (split; [reflexivity|]);
        (split; [discriminate|]); intros p Hp; discriminate Hp. }
  destruct o3 as [a|e|x]; intros E; inversion E; subst;
    exists (setup_requests d iface conn dv), [], conn, dv;
    (split; [rewrite Hc3, Hc2, Hc; unfold setup_requests; now rewrite <- !app_assoc|]);
    (split; [apply app_nil_r|]);
    (split; [discriminate|]); intros p Hp; inversion Hp; subst; split; reflexivity.
Qed.

(** How a call of [addWiredConnection] or [addWirelessConnection] can go. *)
Lemma perform_cases (w : world B) (r : invocation) (o : outcome jsstring) (w' : world B) :
  perform r w = (o, w') ->
  let m := mode_of r in
  ((exists e, o = Thrown e) /\ w' = w
   /\ (static_configuration m w = None \/ missing_parameter r = true))
  \/ (exists iface b1,
         static_configuration m w = Some iface /\ missing_parameter r = false
         /\ w' = with_bus b1 w
         /\ ((exists e, call (Teardown.fn (registry m w)) (bus w) = (Thrown e, b1)
                        /\ o = Thrown e)
             \/ (exists x, call (Teardown.fn (registry m w)) (bus w) = (Exited x, b1)
                           /\ o = Exited x)))
  \/ (exists iface b1 d o2 b2,
         static_configuration m w = Some iface
         /\ call (Teardown.fn (registry m w)) (bus w) = (Returned tt, b1)
         /\ descriptor r (token b1) = Some d
         /\ establish d iface (drawn b1) = (o2, b2)
         /\ match o2 with
            | Returned p =>
                o = Returned iface
                /\ exists line,
                    w' = with_registry m (Teardown.mk (reversal (fst p) (snd p)))
                                       (with_line line (with_bus b2 w))
            | Thrown e =>
                o = Thrown e /\ w' = with_registry m (Teardown.new noop) (with_bus b2 w)
            | Exited x =>
                o = Exited x /\ w' = with_registry m (Teardown.new noop) (with_bus b2 w)
            end).
Proof.
  intros E m. subst m.
  assert (Hinvalid : forall e, (Thrown e, w) = (o, w') ->
                               (exists e, o = Thrown e) /\ w' = w).
  { intros e E'. inversion E'; subst. split; [now eexists | reflexivity]. }
  unfold static_configuration.
  destruct r as [[nat]|[ssid psk nat]]; cbn [perform mode_of registry] in *.
  - destruct (options w) as [opts|] eqn:Eo.
    2:{ unfold addWiredConnection in E. rewrite Eo in E. left.
        destruct (Hinvalid _ E). auto. }
    destruct (opt_wired opts) as [iface|] eqn:Ei.
    2:{ unfold addWiredConnection in E. rewrite Eo, Ei in E. left.
        destruct (Hinvalid _ E). auto. }
    destruct nat as [nat|].
    2:{ unfold addWiredConnection in E. rewrite Eo, Ei in E. left.
        destruct (Hinvalid _ E). auto. }
    right. rewrite (addWiredConnection_valid w opts iface nat Eo Ei) in E.
    destruct (Teardown.run call noop (wired w) (bus w)) as [[o1 b1] t1] eqn:Er.
    apply run_inv in Er. destruct Er as [Ec Et].
    destruct o1 as [[]|e|x]; cbn [returned] in Et; subst t1.
    + right. cbv zeta in E. fold (token b1) in E. fold (drawn b1) in E.
      destruct (establish (Descriptor.wiredTemplate (token b1) (method_of_nat nat))
                          iface (drawn b1)) as [o2 b2] eqn:Ee.
      exists iface, b1, (Descriptor.wiredTemplate (token b1) (method_of_nat nat)), o2, b2.
      split; [reflexivity|]. split; [exact Ec|]. split; [reflexivity|].
      split; [exact Ee|]. clear Ee.
      destruct o2 as [p|e|x]; inversion E; subst; split; try reflexivity.
      eexists. unfold with_registry, with_line, with_bus.
      cbn [options bus wired wireless listeners console]. reflexivity.
    + left. exists iface, b1. inversion E; subst.
      split; [reflexivity|]. split; [reflexivity|]. split.
      * unfold with_bus. destruct w; reflexivity.
      * left. exists e. split; [exact Ec | reflexivity].
    + left. exists iface, b1. inversion E; subst.
      split; [reflexivity|]. split; [reflexivity|]. split.
      * unfold with_bus. destruct w; reflexivity.
      * right. exists x. split; [exact Ec | reflexivity].
  - destruct (options w) as [opts|] eqn:Eo.
    2:{ unfold addWirelessConnection in E. rewrite Eo in E. left.
        destruct (Hinvalid _ E). auto. }
    destruct (opt_wireless opts) as [iface|] eqn:Ei.
    2:{ unfold addWirelessConnection in E. rewrite Eo, Ei in E. left.
        destruct (Hinvalid _ E). auto. }
    destruct ssid as [ssid|], psk as [psk|], nat as [nat|];
      try (unfold addWirelessConnection in E; rewrite Eo, Ei in E; left;
           destruct (Hinvalid _ E); cbn; auto; fail).
    right. rewrite (addWirelessConnection_valid w opts iface ssid psk nat Eo Ei) in E.
    destruct (Teardown.run call noop (wireless w) (bus w)) as [[o1 b1] t1] eqn:Er.
    apply run_inv in Er. destruct Er as [Ec Et].
    destruct o1 as [[]|e|x]; cbn [returned] in Et; subst t1.
    + right. cbv zeta in E. fold (token b1) in E. fold (drawn b1) in E.
      destruct (establish (Descriptor.wirelessTemplate (token b1) (method_of_nat nat)
                                                       ssid (Some psk))
                          iface (drawn b1)) as [o2 b2] eqn:Ee.
      exists iface, b1,
        (Descriptor.wirelessTemplate (token b1) (method_of_nat nat) ssid (Some psk)), o2, b2.
      split; [reflexivity|]. split; [exact Ec|]. split; [reflexivity|].
      split; [exact Ee|]. clear Ee.
      destruct o2 as [p|e|x]; inversion E; subst; split; try reflexivity.
      eexists. unfold with_registry, with_line, with_bus.
      cbn [options bus wired wireless listeners console]. reflexivity.
    + left. exists iface, b1. inversion E; subst.
      split; [reflexivity|]. split; [reflexivity|]. split.
      * unfold with_bus. destruct w; reflexivity.
      * left. exists e. split; [exact Ec | reflexivity].
    + left. exists iface, b1. inversion E; subst.
      split; [reflexivity|]. split; [reflexivity|]. split.
      * unfold with_bus. destruct w; reflexivity.
      * right. exists x. split; [exact Ec | reflexivity].
Qed.

Lemma call_registers_no_descriptor (f : closure) (b b' : Bus.bus B) (o : outcome unit) :
  call f b = (o, b') ->
  exists cs, calls b' = calls b ++ cs /\ registered_descriptors cs = [].
Proof.
  intros E.
  destruct (call_registers_nothing (fun _ => False) f b o b' E) as [cs [R F]].
  exists cs. split; [exact R|].
  apply registered_descriptors_Forall in F.
  destruct (registered_descriptors cs) as [|d ds]; [reflexivity|].
  inversion F as [|? ? Hd _]. contradiction.
Qed.

Lemma setup_requests_descriptor (d : value) (iface conn device : jsstring) :
  registered_descriptors (setup_requests d iface conn device) = [d].
Proof. reflexivity. Qed.

End General.

(** X10: [addConnection], [getDevice] and [activateConnection] each ask
    for the proxy of their object and then call their one method with their
    arguments.  When the proxy cannot be had or lacks the interface, the
    method is not called and the call does not return; otherwise the outcome
    is that of the method. *)
Theorem private_methods_look_up_then_call
        {B : Type} `{Host B} (b b' : Bus.bus B) :
  (forall d o,
      NetworkManager.addConnection d b = (o, b') ->
      (calls b' = calls b ++ [GetProxyObject NetworkManager.NM NetworkManager.Settings_path]
       /\ returned o = false)
      \/ (calls b' = calls b ++ Protocol.lookup_then_call
                                  NetworkManager.Settings_path NetworkManager.Settings_iface
                                  (js "AddConnectionUnsaved") [d]
          /\ exists ns ifs r,
              host_getProxyObject NetworkManager.NM NetworkManager.Settings_path (remote b)
              = (Returned (ns, ifs), r)
              /\ In NetworkManager.Settings_iface ifs
              /\ (o, remote b') = host_AddConnectionUnsaved d r))
  /\ (forall iface o,
         NetworkManager.getDevice iface b = (o, b') ->
         (calls b' = calls b ++ [GetProxyObject NetworkManager.NM NetworkManager.NM_path]
          /\ returned o = false)
         \/ (calls b' = calls b ++ Protocol.lookup_then_call
                                     NetworkManager.NM_path NetworkManager.NM
                                     (js "GetDeviceByIpIface") [VStr iface]
             /\ exists ns ifs r,
                 host_getProxyObject NetworkManager.NM NetworkManager.NM_path (remote b)
                 = (Returned (ns, ifs), r)
                 /\ In NetworkManager.NM ifs
                 /\ (o, remote b') = host_GetDeviceByIpIface iface r))
  /\ (forall reference device o,
         NetworkManager.activateConnection reference device b = (o, b') ->
         (calls b' = calls b ++ [GetProxyObject NetworkManager.NM NetworkManager.NM_path]
          /\ returned o = false)
         \/ (calls b' = calls b ++ Protocol.lookup_then_call
                                     NetworkManager.NM_path NetworkManager.NM
                                     (js "ActivateConnection")
                                     [VStr reference; VStr device; VStr (js "/")]
             /\ exists ns ifs r,
                 host_getProxyObject NetworkManager.NM NetworkManager.NM_path (remote b)
                 = (Returned (ns, ifs), r)
                 /\ In NetworkManager.NM ifs
                 /\ (o, remote b') = host_ActivateConnection reference device (js "/") r)).
Proof.
  split; [|split].
  - intros d o E.
    exact (via_proxy_requests NetworkManager.Settings_path NetworkManager.Settings_iface
                              (js "AddConnectionUnsaved") [d]
                              (fun _ => host_AddConnectionUnsaved d) b b' o E).
  - intros iface o E.
    exact (via_proxy_requests NetworkManager.NM_path NetworkManager.NM
                              (js "GetDeviceByIpIface") [VStr iface]
                              (fun _ => host_GetDeviceByIpIface iface) b b' o E).
  - intros reference device o E.
    exact (via_proxy_requests NetworkManager.NM_path NetworkManager.NM
                              (js "ActivateConnection")
                              [VStr reference; VStr device; VStr (js "/")]
                              (fun _ => host_ActivateConnection reference device (js "/"))
                              b b' o E).
Qed.

(** X3: a call of [addWiredConnection] or [addWirelessConnection] hands
    at most one descriptor to [AddConnectionUnsaved], the one built from its
    own arguments; a call that returns has handed over exactly that one. *)
Theorem at_most_one_descriptor_per_call
        {B : Type} `{Host B} (w : NetworkManager.world B) (r : Vocabulary.invocation) :
  let run := Vocabulary.perform r w in
  exists cs,
    Vocabulary.requested (NetworkManager.bus w) (NetworkManager.bus (snd run)) cs
    /\ ((Vocabulary.registered_descriptors cs = [] /\ returned (fst run) = false)
        \/ exists rnd d,
            Vocabulary.descriptor r rnd = Some d
            /\ Vocabulary.registered_descriptors cs = [d]).
Proof.
  intros run. subst run.
  destruct (Vocabulary.perform r w) as [o w'] eqn:E. cbn [fst snd].
  apply perform_cases in E. cbv zeta in E. unfold Vocabulary.requested.
  destruct E as [([e ->] & -> & _)
                |[(iface & b1 & _ & _ & -> & Hc)
                 |(iface & b1 & d & o2 & b2 & _ & Hc & Hd & He & Ho)]].
  - exists []. split; [now rewrite app_nil_r|]. left. split; reflexivity.
  - assert (Hcall : exists o1, NetworkManager.call
                                 (Teardown.fn (Vocabulary.registry (Vocabulary.mode_of r) w))
                                 (NetworkManager.bus w) = (o1, b1)
                               /\ returned o = false).
    { destruct Hc as [(e & Hc & ->)|(x & Hc & ->)]; eexists; split; eauto. }
    destruct Hcall as (o1 & Hc1 & Hr).
    destruct (call_registers_no_descriptor _ _ _ _ Hc1) as [cs [R D]].
    exists cs. split; [exact R|]. left. split; [exact D | exact Hr].
  - destruct (call_registers_no_descriptor _ _ _ _ Hc) as [cs1 [R1 D1]].
    destruct (establish_requests _ _ _ _ _ He) as (cs2 & rest & conn & device & R2 & Hs & _ & Hp).
    assert (Hbus : NetworkManager.bus w' = b2).
    { destruct o2 as [p|e|x].
      - destruct Ho as [_ [line ->]]. now destruct (Vocabulary.mode_of r).
      - destruct Ho as [_ ->]. now destruct (Vocabulary.mode_of r).
      - destruct Ho as [_ ->]. now destruct (Vocabulary.mode_of r). }
    exists (cs1 ++ cs2). split.
    { rewrite Hbus, R2. cbn [Protocol.drawn calls]. rewrite R1. now rewrite app_assoc. }
    rewrite registered_descriptors_app, D1. cbn [app].
    assert (Hd2 : Vocabulary.registered_descriptors cs2
                  ++ Vocabulary.registered_descriptors rest = [d]).
    { rewrite <- registered_descriptors_app, Hs. apply setup_requests_descriptor. }
    apply app_eq_unit in Hd2. destruct Hd2 as [[D2 Dr]|[D2 Dr]].
    + left. split; [exact D2|].
      destruct o2 as [p|e|x].
      * destruct (Hp p eq_refl) as [-> _]. discriminate Dr.
      * destruct Ho as [-> _]. reflexivity.
      * destruct Ho as [-> _]. reflexivity.
    + right. exists (Protocol.token b1), d. split; [exact Hd | exact D2].
Qed.



(** X5: a call that returns has returned the interface name configured
    for its Mode; its registry was run first and returned; after that the
    six requests of the set-up were made and nothing else; and the registry
    now holds the reversal whose profile is the one that was activated. *)
Theorem successful_call_makes_the_six_requests
        {B : Type} `{Host B} (w w' : NetworkManager.world B)
        (r : Vocabulary.invocation) (result : jsstring) :
  Vocabulary.perform r w = (Returned result, w') ->
  let m := Vocabulary.mode_of r in
  exists b1 d conn device activeConn line,
    Vocabulary.static_configuration m w = Some result
    /\ NetworkManager.call (Teardown.fn (Vocabulary.registry m w)) (NetworkManager.bus w)
       = (Returned tt, b1)
    /\ Vocabulary.descriptor r (Protocol.token b1) = Some d
    /\ calls (NetworkManager.bus w')
       = calls b1 ++ Protocol.setup_requests d result conn device
    /\ Vocabulary.registry m w' = Teardown.mk (NetworkManager.reversal activeConn conn)
    /\ NetworkManager.console w' = NetworkManager.console w ++ [line].
Proof.
  intros E m. subst m. apply perform_cases in E. cbv zeta in E.
  destruct E as [([e He] & _)
                |[(iface & b1 & _ & _ & _ & [(e & _ & He)|(x & _ & He)])
                 |(iface & b1 & d & o2 & b2 & Hs & Hc & Hd & He & Ho)]];
    try discriminate He.
  destruct o2 as [p|e|x]; [|destruct Ho as [Ho _]; discriminate Ho ..].
  destruct Ho as [Hi [line ->]]. inversion Hi; subst iface.
  destruct (establish_requests _ _ _ _ _ He) as (cs & rest & conn & device & R & Hr & _ & Hp).
  destruct (Hp p eq_refl) as [-> Hconn]. rewrite app_nil_r in Hr. subst cs conn.
  exists b1, d, (snd p), device, (fst p), line.
  split; [exact Hs|]. split; [exact Hc|]. split; [exact Hd|].
  destruct (Vocabulary.mode_of r); repeat split; try reflexivity; exact R.
Qed.

(** X5 (witness): the first wired set-up on the idle host. *)
Lemma successful_call_makes_the_six_requests_witness :
  let r := Vocabulary.AddWired (NetworkManager.mkWired (Some true)) in
  let w := Service.fresh [] in
  let w' := Scenario.wired_up in
  exists b1 d conn device activeConn line,
    Vocabulary.static_configuration Vocabulary.Wired w = Some Service.eth0
    /\ NetworkManager.call (Teardown.fn (Vocabulary.registry Vocabulary.Wired w))
                           (NetworkManager.bus w)
       = (Returned tt, b1)
    /\ Vocabulary.descriptor r (Protocol.token b1) = Some d
    /\ calls (NetworkManager.bus w')
       = calls b1 ++ Protocol.setup_requests d Service.eth0 conn device
    /\ Vocabulary.registry Vocabulary.Wired w'
       = Teardown.mk (NetworkManager.reversal activeConn conn)
    /\ NetworkManager.console w' = NetworkManager.console w ++ [line].
Proof.
  intros r w w'.
  apply (successful_call_makes_the_six_requests w w' r Service.eth0).
  vm_compute. reflexivity.
Defined.

(** X11: when the configuration is usable and the Mode's Teardown Action
    throws, the call throws the same error, the manager keeps every field
    but the bus handle (so the registry still holds the action), and no
    descriptor has been registered. *)
Theorem failed_teardown_aborts_the_call
        {B : Type} `{Host B} (w : NetworkManager.world B) (r : Vocabulary.invocation)
        (iface : jsstring) (e : error) (b1 : Bus.bus B) :
  Vocabulary.static_configuration (Vocabulary.mode_of r) w = Some iface ->
  Vocabulary.missing_parameter r = false ->
  NetworkManager.call (Teardown.fn (Vocabulary.registry (Vocabulary.mode_of r) w))
                      (NetworkManager.bus w)
  = (Thrown e, b1) ->
  Vocabulary.perform r w = (Thrown e, Vocabulary.with_bus b1 w)
  /\ Vocabulary.registered_descriptors (calls b1)
     = Vocabulary.registered_descriptors (calls (NetworkManager.bus w)).
Proof.
  intros Hs Hm Hc. split.
  - destruct (Vocabulary.perform r w) as [o w'] eqn:E.
    apply perform_cases in E. cbv zeta in E.
    destruct E as [(_ & _ & [Hn|Hn])
                  |[(iface' & b1' & _ & _ & -> & [(e' & Hc' & ->)|(x & Hc' & ->)])
                   |(iface' & b1' & d & o2 & b2 & _ & Hc' & _)]];
      try congruence.
  - destruct (call_registers_no_descriptor _ _ _ _ Hc) as [cs [R D]].
    rewrite R, registered_descriptors_app, D. apply app_nil_r.
Qed.

(** X11 (witness): the wired access point is up, the service does not
    answer, and a new wired set-up is asked for. *)
Lemma failed_teardown_aborts_the_call_witness :
  let r := Vocabulary.AddWired (NetworkManager.mkWired (Some false)) in
  let w := Scenario.unreachable Scenario.wired_up in
  let b1 := snd (NetworkManager.call (Teardown.fn (NetworkManager.wired w))
                                     (NetworkManager.bus w)) in
  Vocabulary.perform r w = (Thrown Scenario.no_reply, Vocabulary.with_bus b1 w)
  /\ Vocabulary.registered_descriptors (calls b1)
     = Vocabulary.registered_descriptors (calls (NetworkManager.bus w)).
Proof.
  intros r w b1.
  apply (failed_teardown_aborts_the_call w r Service.eth0 Scenario.no_reply b1).
  - reflexivity.
  - reflexivity.
  - vm_compute. reflexivity.
Defined.

Section Closing.
Import NetworkManager Vocabulary Protocol.
Context {B : Type} `{Host B}.

Lemma existsb_none {A} (f : A -> bool) (xs : list A) :
  Forall (fun x => f x = false) xs -> existsb f xs = false.
Proof.
  induction 1 as [|x xs Hx _ IH]; [reflexivity|]. cbn [existsb]. now rewrite Hx, IH.
Qed.

Lemma teardown_idle (w : world B) :
  wired w = Teardown.new noop ->
  wireless w = Teardown.new noop ->
  teardown this_manager None w
  = (fst (host_disconnect (remote (bus w))),
     mkWorld (options w)
             (mkBus (snd (host_disconnect (remote (bus w)))) (calls (bus w) ++ [Disconnect]))
             (Teardown.new noop) (Teardown.new noop) (deregistered w) (console w)).
Proof.
  intros Hw Hl.
  destruct (host_disconnect (remote (bus w))) as [[[]|e|x] r3] eqn:Ed; cbn [fst snd].
  - rewrite (teardown_both_return None w tt tt tt (bus w) (bus w) r3);
      [reflexivity | now rewrite Hw | now rewrite Hl | exact Ed].
  - apply (teardown_disconnect_throws None w tt tt e (bus w) (bus w) r3);
      [now rewrite Hw | now rewrite Hl | exact Ed].
  - unfold teardown, bind, process_removeListener, this_teardown,
    this_teardowns, run_wired, run_wireless, on_bus, disconnect, request.
    cbn [options bus wired wireless listeners console].
    rewrite Hw, Hl. cbn. now rewrite Ed.
Qed.

Lemma teardown_returned_idle (signal : option jsstring) (w w1 : world B) (u : unit) :
  teardown this_manager signal w = (Returned u, w1) ->
  wired w1 = Teardown.new noop /\ wireless w1 = Teardown.new noop.
Proof.
  unfold teardown, bind, process_removeListener, this_teardown,
  this_teardowns, run_wired, run_wireless, on_bus, disconnect, request.
  cbn [options bus wired wireless listeners console].
  destruct (Teardown.run call noop (wired w) (bus w)) as [[[u1|e1|c1] b1] t1] eqn:E1;
    try discriminate.
  cbn [options bus wired wireless listeners console].
  destruct (Teardown.run call noop (wireless w) b1) as [[[u2|e2|c2] b2] t2] eqn:E2;
    try discriminate.
  cbn [options bus wired wireless listeners console].
  apply run_inv in E1. destruct E1 as [_ ->].
  apply run_inv in E2. destruct E2 as [_ ->].
  destruct (host_disconnect (remote b2)) as [[u3|e3|c3] r3]; try discriminate.
  destruct signal as [s|].
  - destruct (streq s SIGINT); [discriminate|].
    destruct (streq s SIGTERM); [discriminate|].
    intros E. inversion E; subst. split; reflexivity.
  - intros E. inversion E; subst. split; reflexivity.
Qed.

End Closing.

(** X6: the registered reversal makes its requests in two runs, the first
    free of [Delete] and the second free of [DeactivateConnection]: the
    connection is deactivated before its profile is deleted.  When the
    deactivation throws, the reversal throws with nothing more asked of the
    bus. *)
Theorem reversal_deactivates_before_it_deletes
        {B : Type} `{Host B} (activeConn conn : jsstring) (b : Bus.bus B) :
  let run := NetworkManager.call (NetworkManager.reversal activeConn conn) b in
  (exists cs1 cs2,
      calls (snd run) = calls b ++ cs1 ++ cs2
      /\ existsb (Vocabulary.is_member "Delete") cs1 = false
      /\ existsb (Vocabulary.is_member "DeactivateConnection") cs2 = false)
  /\ (forall e b1,
         NetworkManager.deactivateConnection activeConn b = (Thrown e, b1) ->
         run = (Thrown e, b1)).
Proof.
  intros run. subst run. cbn [NetworkManager.call]. unfold bind. split.
  - destruct (NetworkManager.deactivateConnection activeConn b) as [o1 b1] eqn:E1.
    destruct (only_deactivateConnection
                (fun c => Vocabulary.is_member "Delete" c = false)
                (fun _ _ => eq_refl) activeConn (fun _ _ _ => eq_refl) b o1 b1 E1)
      as [cs1 [R1 F1]].
    apply existsb_none in F1.
    destruct o1 as [u|e|x].
    + destruct (NetworkManager.removeConnection conn b1) as [o2 b2] eqn:E2.
      destruct (only_removeConnection
                  (fun c => Vocabulary.is_member "DeactivateConnection" c = false)
                  (fun _ _ => eq_refl) conn (fun _ _ _ => eq_refl) b1 o2 b2 E2)
        as [cs2 [R2 F2]].
      apply existsb_none in F2.
      exists cs1, cs2. cbn [snd]. unfold Vocabulary.requested in *.
      split; [rewrite R2, R1; symmetry; apply app_assoc | split; assumption].
    + exists cs1, []. cbn [snd]. unfold Vocabulary.requested in *.
      rewrite app_nil_r. split; [exact R1 | split; [exact F1 | reflexivity]].
    + exists cs1, []. cbn [snd]. unfold Vocabulary.requested in *.
      rewrite app_nil_r. split; [exact R1 | split; [exact F1 | reflexivity]].
  - intros e b1 E. now rewrite E.
Qed.

(** X7: on a manager whose registries both hold the no-op, [teardown()]
    asks the bus for nothing but the disconnect, ends as the disconnect
    does, and takes its registrations off both signals. *)
Theorem teardown_of_an_idle_manager_only_disconnects
        {B : Type} `{Host B} (w : NetworkManager.world B) :
  NetworkManager.wired w = Teardown.new NetworkManager.noop ->
  NetworkManager.wireless w = Teardown.new NetworkManager.noop ->
  NetworkManager.teardown NetworkManager.this_manager None w
  = (fst (host_disconnect (remote (NetworkManager.bus w))),
     NetworkManager.mkWorld
       (NetworkManager.options w)
       (mkBus (snd (host_disconnect (remote (NetworkManager.bus w))))
              (calls (NetworkManager.bus w) ++ [Disconnect]))
       (Teardown.new NetworkManager.noop) (Teardown.new NetworkManager.noop)
       (Vocabulary.deregistered w) (NetworkManager.console w)).
Proof. intros Hw Hl. now apply teardown_idle. Qed.

(** X7 (witness): the manager as constructed on the idle host. *)
Lemma teardown_of_an_idle_manager_only_disconnects_witness :
  NetworkManager.teardown NetworkManager.this_manager None (Service.fresh [])
  = (Returned tt,
     NetworkManager.mkWorld
       Service.both_modes (mkBus (Service.idle_host []) [OnError; Disconnect])
       (Teardown.new NetworkManager.noop) (Teardown.new NetworkManager.noop)
       [] []).
Proof.
  rewrite (teardown_of_an_idle_manager_only_disconnects (Service.fresh []));
    reflexivity.
Defined.

(** X8: after [teardown()] has returned, a second [teardown()] repeats
    no reversal: it disconnects the bus once more and ends as that
    disconnect does. *)
Theorem second_teardown_only_disconnects_again
        {B : Type} `{Host B} (w w1 : NetworkManager.world B) :
  NetworkManager.teardown NetworkManager.this_manager None w = (Returned tt, w1) ->
  NetworkManager.teardown NetworkManager.this_manager None w1
  = (fst (host_disconnect (remote (NetworkManager.bus w1))),
     NetworkManager.mkWorld
       (NetworkManager.options w1)
       (mkBus (snd (host_disconnect (remote (NetworkManager.bus w1))))
              (calls (NetworkManager.bus w1) ++ [Disconnect]))
       (Teardown.new NetworkManager.noop) (Teardown.new NetworkManager.noop)
       (Vocabulary.deregistered w1) (NetworkManager.console w1)).
Proof.
  intros E. apply teardown_returned_idle in E. destruct E as [Hw Hl].
  now apply teardown_idle.
Qed.

(** X8 (witness): both access points were up before the first teardown. *)
Lemma second_teardown_only_disconnects_again_witness :
  let w1 := snd (NetworkManager.teardown NetworkManager.this_manager None Scenario.both_up) in
  let run := NetworkManager.teardown NetworkManager.this_manager None w1 in
  fst run = Returned tt
  /\ calls (NetworkManager.bus (snd run)) = calls (NetworkManager.bus w1) ++ [Disconnect].
Proof.
  intros w1 run. subst run.
  rewrite (second_teardown_only_disconnects_again Scenario.both_up w1).
  - split; reflexivity.
  - vm_compute. reflexivity.
Defined.

(** X9: the constructor installs [this.teardown] as a bare function.
    When SIGINT or SIGTERM is delivered, the function runs with [process] as
    receiver and throws a [TypeError]; no registry is run, no listener is
    removed and the process is not ended by it. *)
Theorem delivered_signal_runs_no_teardown
        {B : Type} `{Host B}
        (opts : option NetworkManager.NetworkOptions) (b : Bus.bus B)
        (tds : Teardown.t NetworkManager.closure * Teardown.t NetworkManager.closure)
        (sig : jsstring) :
  sig = SIGINT \/ sig = SIGTERM ->
  exists message,
    NetworkManager.deliver sig (NetworkManager.constructor opts b tds)
    = (Thrown (TypeError message), NetworkManager.constructor opts b tds).
Proof.
  intros Hsig. eexists. now apply deliver_calls_unbound_method.
Qed.

(** X9 (witness): SIGINT delivered to the manager as constructed. *)
Lemma delivered_signal_runs_no_teardown_witness :
  exists message,
    NetworkManager.deliver SIGINT (Service.fresh [])
    = (Thrown (TypeError message), Service.fresh []).
Proof.
  apply (delivered_signal_runs_no_teardown
           Service.both_modes (mkBus (Service.idle_host []) [])
           NetworkManager.default_teardowns SIGINT).
  left. reflexivity.
Defined.

Section TwoModes.
Import NetworkManager Vocabulary Protocol Service.

Lemma call_keeps_the_other (f : closure) (a c : jsstring)
      (b b' : Bus.bus service) (o : outcome unit) :
  f = noop \/ (exists a' c', f = reversal a' c' /\ a' <> a /\ c' <> c) ->
  call f b = (o, b') ->
  In a (actives (behind b)) -> In c (profiles (behind b)) ->
  In a (actives (behind b')) /\ In c (profiles (behind b'))
  /\ ((exists u, o = Returned u) \/ exists e, o = Thrown e).
Proof.
  intros [->|(a' & c' & -> & Ha & Hc)] E Hina Hinc.
  - cbn in E. inversion E; subst. repeat split; eauto.
  - apply call_reversal_service in E.
    destruct E as (_ & _ & _ & [(-> & -> & ->)|([e ->] & Hacts & ->)]).
    + split; [|split].
      * apply In_without. split; [exact Hina | congruence].
      * apply In_without. split; [exact Hinc | congruence].
      * left. now eexists.
    + split; [|split].
      * destruct Hacts as [-> | ->]; [exact Hina|].
        apply In_without. split; [exact Hina | congruence].
      * exact Hinc.
      * right. now eexists.
Qed.

Lemma establish_keeps (d : value) (iface a c : jsstring)
      (b b' : Bus.bus service) (o : outcome (jsstring * jsstring)) :
  establish d iface b = (o, b') ->
  In a (actives (behind b)) -> In c (profiles (behind b)) ->
  In a (actives (behind b')) /\ In c (profiles (behind b')).
Proof.
  intros E Hina Hinc. apply establish_service in E. cbv zeta in E.
  destruct E as [(_ & -> & _ & [[-> _]|[-> _]])|(_ & -> & _ & -> & _)];
    split; auto; apply in_or_app; now left.
Qed.

End TwoModes.

(** X12: against the service, a call for one Mode whose own registry is
    idle or holds another connection leaves the other Mode's connection
    active, its profile registered and its registry unchanged, whatever the
    outcome of the call. *)
Theorem call_on_one_mode_keeps_the_other_connection
        (w w' : NetworkManager.world Service.service) (r : Vocabulary.invocation)
        (a c : jsstring) (o : outcome jsstring) :
  let m := Vocabulary.mode_of r in
  Vocabulary.registry (Protocol.other m) w = Teardown.mk (NetworkManager.reversal a c) ->
  (Vocabulary.registry m w = Teardown.new NetworkManager.noop
   \/ exists a' c',
       Vocabulary.registry m w = Teardown.mk (NetworkManager.reversal a' c')
       /\ a' <> a /\ c' <> c) ->
  In a (Service.actives (Service.behind (NetworkManager.bus w))) ->
  In c (Service.profiles (Service.behind (NetworkManager.bus w))) ->
  Vocabulary.perform r w = (o, w') ->
  In a (Service.actives (Service.behind (NetworkManager.bus w')))
  /\ In c (Service.profiles (Service.behind (NetworkManager.bus w')))
  /\ Vocabulary.registry (Protocol.other m) w' = Teardown.mk (NetworkManager.reversal a c).
Proof.
  intros m Hother Hown Hina Hinc E. subst m.
  assert (Hf : Teardown.fn (Vocabulary.registry (Vocabulary.mode_of r) w) = NetworkManager.noop
               \/ exists a' c',
                   Teardown.fn (Vocabulary.registry (Vocabulary.mode_of r) w)
                   = NetworkManager.reversal a' c' /\ a' <> a /\ c' <> c).
  { destruct Hown as [->|(a' & c' & -> & Hn)]; [now left|]. right. now exists a', c'. }
  apply perform_cases in E. cbv zeta in E.
  destruct E as [(_ & -> & _)
                |[(iface & b1 & _ & _ & -> & Hc)
                 |(iface & b1 & d & o2 & b2 & _ & Hc & _ & He & Ho)]].
  - auto.
  - assert (Hc' : exists o1, NetworkManager.call
                               (Teardown.fn (Vocabulary.registry (Vocabulary.mode_of r) w))
                               (NetworkManager.bus w) = (o1, b1)).
    { destruct Hc as [(e & Hc & _)|(x & Hc & _)]; eauto. }
    destruct Hc' as [o1 Hc1].
    destruct (call_keeps_the_other _ a c _ _ _ Hf Hc1 Hina Hinc) as (Ka & Kc & _).
    split; [exact Ka|]. split; [exact Kc|].
    rewrite <- Hother. now destruct (Vocabulary.mode_of r).
  - destruct (call_keeps_the_other _ a c _ _ _ Hf Hc Hina Hinc) as (Ka & Kc & _).
    destruct (establish_keeps d iface a c (Protocol.drawn b1) b2 o2 He Ka Kc) as [Ka2 Kc2].
    assert (Hw' : NetworkManager.bus w' = b2
                  /\ Vocabulary.registry (Protocol.other (Vocabulary.mode_of r)) w'
                     = Vocabulary.registry (Protocol.other (Vocabulary.mode_of r)) w).
    { destruct o2 as [p|e|x].
      - destruct Ho as [_ [line ->]]. now destruct (Vocabulary.mode_of r).
      - destruct Ho as [_ ->]. now destruct (Vocabulary.mode_of r).
      - destruct Ho as [_ ->]. now destruct (Vocabulary.mode_of r). }
    destruct Hw' as [-> ->]. auto.
Qed.

(** X12 (witness): both access points are up and the wireless one is
    set up again. *)
Lemma call_on_one_mode_keeps_the_other_connection_witness :
  let r := Vocabulary.AddWireless
             (NetworkManager.mkWireless (Some (js "other")) (Some (js "mypsk")) (Some false)) in
  let w' := snd (Vocabulary.perform r Scenario.both_up) in
  In Scenario.active0 (Service.actives (Service.behind (NetworkManager.bus w')))
  /\ In Scenario.profile0 (Service.profiles (Service.behind (NetworkManager.bus w')))
  /\ Vocabulary.registry Vocabulary.Wired w'
     = Teardown.mk (NetworkManager.reversal Scenario.active0 Scenario.profile0).
Proof.
  intros r w'.
  apply (call_on_one_mode_keeps_the_other_connection
           Scenario.both_up w' r Scenario.active0 Scenario.profile0
           (fst (Vocabulary.perform r Scenario.both_up))).
  - reflexivity.
  - right. exists Scenario.active1, Scenario.profile1.
    split; [reflexivity|]. split; intros E; vm_compute in E; discriminate E.
  - vm_compute. left. reflexivity.
  - vm_compute. left. reflexivity.
  - vm_compute. reflexivity.
Defined.

Section Reachable.
Import NetworkManager Vocabulary Protocol Service.






End Reachable.


